(** * health_checker: a shallow embedding of the scheduled health check

    The Python package [health_checker] queries an audit table for the
    prior-day invocations of a fixed list of functions, classifies each row,
    computes an error rate and publishes a notification when the rate reaches
    a threshold.

    The embedding keeps the shape of the source.  Code that logs, reads the
    clock, talks to MySQL or to AWS, or raises, lives in a state-and-exception
    monad [M] over a [World]; every interaction with the outside is appended
    to the world's event history, and the outside answers through an oracle
    that sees the whole history.  Pure code is a plain function. *)

From Stdlib Require Import ZArith QArith List String Ascii Bool Lia Recdef.
From Stdlib Require Import Sorted Permutation.
Import ListNotations.

Local Open Scope string_scope.
Local Open Scope list_scope.
Local Open Scope Z_scope.

(** ** Python values and exceptions *)

Module Py.

(** The exception classes the package raises or lets through.
    [DatabaseError] and [SecretError] are the package's own classes;
    [LibraryError] stands for any other subclass of [Exception] raised by a
    client library (mysql.connector, botocore), [BaseExceptionOnly] for
    exceptions that derive from [BaseException] but not from [Exception]. *)
Inductive exn : Type :=
| DatabaseError (msg : string)
| SecretError (msg : string)
| ResourceNotFoundException (msg : string)
| RuntimeError (msg : string)
| ZeroDivisionError (msg : string)
| NotImplementedError
| IndexError (msg : string)
| KeyError (key : string)
| ValueError (msg : string)
| TypeError (msg : string)
| AttributeError (msg : string)
| LibraryError (class msg : string)
| BaseExceptionOnly (class : string).

(** [except DatabaseError] *)
Definition is_DatabaseError (e : exn) : bool :=
  match e with DatabaseError _ => true | _ => false end.

(** [except _CLIENT.exceptions.ResourceNotFoundException] *)
Definition is_ResourceNotFoundException (e : exn) : bool :=
  match e with ResourceNotFoundException _ => true | _ => false end.

(** [except Exception] *)
Definition is_Exception (e : exn) : bool :=
  match e with BaseExceptionOnly _ => false | _ => true end.

(** A bare [except:] *)
Definition is_BaseException (e : exn) : bool := true.

(** An evaluated f-string, kept as its sequence of parts: the literal text
    and the interpolated values.  Numbers and exceptions stay symbolic, so
    that no model of Python's number formatting is needed. *)
Inductive piece : Type :=
| Lit (s : string)
| Str (s : string)
| Int (z : Z)
| Float (q : Q)
| Exc (e : exn).

Definition fstring : Type := list piece.

(** [datetime]: microseconds since 1970-01-01T00:00:00 UTC. *)
Definition datetime : Type := Z.

Definition timedelta (days minutes : Z) : Z :=
  days * 86400000000 + minutes * 60000000.

(** A [dict] with string keys, in insertion order. *)
Definition dict (V : Type) : Type := list (string * V).

Fixpoint dict_get {V} (d : dict V) (k : string) : option V :=
  match d with
  | [] => None
  | (k', v) :: d' => if String.eqb k' k then Some v else dict_get d' k
  end.

(** [d[k] = v]: an existing key keeps its position. *)
Fixpoint dict_set {V} (d : dict V) (k : string) (v : V) : dict V :=
  match d with
  | [] => [(k, v)]
  | (k', v') :: d' =>
      if String.eqb k' k then (k', v) :: d' else (k', v') :: dict_set d' k v
  end.

(** [{**d1, **d2}] *)
Definition dict_merge {V} (d1 d2 : dict V) : dict V :=
  fold_left (fun d kv => dict_set d (fst kv) (snd kv)) d2 d1.

(** [l.sort()] on a list of [datetime]s: ascending and stable.  Each element
    is inserted after the elements that are not greater than it. *)
Fixpoint sort_insert (x : datetime) (l : list datetime) : list datetime :=
  match l with
  | [] => [x]
  | y :: l' => if x <? y then x :: l else y :: sort_insert x l'
  end.

Definition list_sort (l : list datetime) : list datetime :=
  fold_left (fun sorted x => sort_insert x sorted) l [].

(** A [dict] whose keys are the indices given by [enumerate]. *)
Definition index_dict (V : Type) : Type := list (nat * V).

Fixpoint index_dict_get {V} (d : index_dict V) (k : nat) : option V :=
  match d with
  | [] => None
  | (k', v) :: d' => if Nat.eqb k' k then Some v else index_dict_get d' k
  end.

Fixpoint index_dict_set {V} (d : index_dict V) (k : nat) (v : V) : index_dict V :=
  match d with
  | [] => [(k, v)]
  | (k', v') :: d' =>
      if Nat.eqb k' k then (k', v) :: d' else (k', v') :: index_dict_set d' k v
  end.

End Py.

Export Py.

(** ** Strings

    Strings are sequences of ASCII characters; [str.upper] is modelled on
    them (the letters a-z are mapped to A-Z, every other character is left
    as it is). *)

Module PyStr.

Definition upper_ascii (c : ascii) : ascii :=
  let n := nat_of_ascii c in
  if (Nat.leb 97 n && Nat.leb n 122)%bool then ascii_of_nat (n - 32) else c.

(** [s.upper()] *)
Fixpoint upper (s : string) : string :=
  match s with
  | EmptyString => EmptyString
  | String c s' => String (upper_ascii c) (upper s')
  end.

(** [sub in s] *)
Fixpoint contains (sub s : string) : bool :=
  if String.prefix sub s then true
  else match s with
       | EmptyString => false
       | String _ s' => contains sub s'
       end.

(** [s.split(sep)] for a one-character separator: the fields between the
    occurrences of [sep], empty fields included. *)
Fixpoint split_on (sep : ascii) (s : string) : list string :=
  match s with
  | EmptyString => [EmptyString]
  | String c s' =>
      if Ascii.eqb c sep then EmptyString :: split_on sep s'
      else match split_on sep s' with
           | [] => [String c EmptyString]
           | f :: fs => String c f :: fs
           end
  end.

(** [s.rstrip(...)]: the trailing characters that satisfy [strip] are
    removed. *)
Fixpoint rstrip_by (strip : ascii -> bool) (s : string) : string :=
  match s with
  | EmptyString => EmptyString
  | String c s' =>
      match rstrip_by strip s' with
      | EmptyString => if strip c then EmptyString else String c EmptyString
      | r => String c r
      end
  end.

Fixpoint lstrip_by (strip : ascii -> bool) (s : string) : string :=
  match s with
  | EmptyString => EmptyString
  | String c s' => if strip c then lstrip_by strip s' else s
  end.

(** [s.rstrip(ch)] for a one-character set *)
Definition rstrip (ch : ascii) (s : string) : string :=
  rstrip_by (Ascii.eqb ch) s.

(** ASCII whitespace, as [str.split()] without argument sees it:
    space, tab, newline, vertical tab, form feed, carriage return and the
    separators 28-31. *)
Definition is_space (c : ascii) : bool :=
  let n := nat_of_ascii c in
  (Nat.eqb n 32 || (Nat.leb 9 n && Nat.leb n 13) || (Nat.leb 28 n && Nat.leb n 31))%bool.

(** [s.split()]: the maximal runs of non-whitespace characters.
    [cur] is the run being read. *)
Fixpoint split_ws_from (cur : option string) (s : string) : list string :=
  match s with
  | EmptyString => match cur with Some w => [w] | None => [] end
  | String c s' =>
      if is_space c then
        match cur with
        | Some w => w :: split_ws_from None s'
        | None => split_ws_from None s'
        end
      else
        split_ws_from
          (Some (match cur with
                 | Some w => String.append w (String c EmptyString)
                 | None => String c EmptyString
                 end)) s'
  end.

Definition split_ws (s : string) : list string := split_ws_from None s.

Definition is_digit (c : ascii) : bool :=
  let n := nat_of_ascii c in (Nat.leb 48 n && Nat.leb n 57)%bool.

(** Decimal digits with single underscores between them. *)
Fixpoint parse_digits (acc : Z) (after_digit : bool) (s : string) : option Z :=
  match s with
  | EmptyString => if after_digit then Some acc else None
  | String c s' =>
      if is_digit c then
        parse_digits (10 * acc + Z.of_nat (nat_of_ascii c - 48)) true s'
      else if (Ascii.eqb c "_" && after_digit)%bool then
        parse_digits acc false s'
      else None
  end.

(** [int(s)] for a string [s]: surrounding whitespace, an optional sign,
    decimal digits.  [None] stands for [ValueError]. *)
Definition int (s : string) : option Z :=
  match lstrip_by is_space (rstrip_by is_space s) with
  | String "-" s' => option_map Z.opp (parse_digits 0 false s')
  | String "+" s' => parse_digits 0 false s'
  | s' => parse_digits 0 false s'
  end.

End PyStr.

(** ** Data model *)

(** One record of the [runAudits] table, as [cursor.fetchall()] returns it
    with [dictionary=True]. *)
Record AuditRow : Type := {
  run_id : Z;
  function_name : string;
  function_start_time : datetime;
  records_written : Z;
  records_read : Z;
  status : string
}.

(** An element of [errored_rows]: the two-element list [[run_id, reason]]. *)
Definition ErrorEntry : Type := (Z * fstring)%type.

Inductive Level : Type := DEBUG | INFO | WARNING | ERROR.

(** A value of a keyword argument of [MySQLConnectionPool]. *)
Inductive kwval : Type := KStr (s : string) | KBool (b : bool).

(** The pool object bound to [_POOL], described by the arguments it was
    built from. *)
Record Pool : Type := {
  pool_name : string;
  pool_size : Z;
  pool_kwargs : dict kwval
}.

Definition Connection : Type := nat.
Definition Cursor : Type := nat.

(** Calls into client libraries.  Each may raise. *)
Inductive Call : Type :=
| get_secret_value (SecretId : string)
| MySQLConnectionPool (p : Pool)
| get_connection (p : Pool)
| connection_cursor (c : Connection)
| cursor_execute (k : Cursor) (operation : string) (params : list string)
| cursor_fetchall (k : Cursor)
| cursor_close (k : Cursor)
| connection_commit (c : Connection)
| connection_rollback (c : Connection)
| connection_close (c : Connection)
| sns_publish (TopicArn : string) (Message Subject : fstring)
| get_schedule (Name : string).

(** What a call returns when it does not raise. *)
Definition returns (c : Call) : Type :=
  match c with
  | get_secret_value _ => dict string
  | get_connection _ => Connection
  | connection_cursor _ => Cursor
  | cursor_fetchall _ => list AuditRow
  | get_schedule _ => dict string
  | _ => unit
  end.

Inductive Event : Type :=
| Logged (level : Level) (msg : fstring)
| Now
| Called (c : Call).

(** The outside of the process: the clock, the process environment and the
    answers of the client libraries, each a function of the history so far. *)
Record Outside : Type := {
  utcnow : list Event -> datetime;
  environ : string -> option string;
  answer : forall c : Call, list Event -> exn + returns c
}.

(** The process state: the module globals and the history of events. *)
Record World : Type := {
  outside : Outside;
  _POOL : option Pool;
  secret_payload_cache : option (string * dict string);
  events : list Event
}.

Definition record (e : Event) (w : World) : World :=
  {| outside := outside w; _POOL := _POOL w;
     secret_payload_cache := secret_payload_cache w;
     events := events w ++ [e] |}.

(** The world after the events [es] happened, in that order. *)
Definition record_all (es : list Event) (w : World) : World :=
  {| outside := outside w; _POOL := _POOL w;
     secret_payload_cache := secret_payload_cache w;
     events := events w ++ es |}.

Definition set_POOL (p : option Pool) (w : World) : World :=
  {| outside := outside w; _POOL := p;
     secret_payload_cache := secret_payload_cache w;
     events := events w |}.

Definition set_secret_payload_cache (c : option (string * dict string)) (w : World) : World :=
  {| outside := outside w; _POOL := _POOL w;
     secret_payload_cache := c;
     events := events w |}.

(** ** The monad of effectful code *)

Definition M (A : Type) : Type := World -> World * (exn + A).

Definition ret {A} (a : A) : M A := fun w => (w, inr a).

Definition raise {A} (e : exn) : M A := fun w => (w, inl e).

Definition bind {A B} (m : M A) (k : A -> M B) : M B :=
  fun w => match m w with
           | (w', inr a) => k a w'
           | (w', inl e) => (w', inl e)
           end.

Declare Scope py_scope.
Delimit Scope py_scope with py.
Notation "x <- m ;; k" := (bind m (fun x => k))
  (at level 100, m at next level, right associativity) : py_scope.
Notation "m ;; k" := (bind m (fun _ => k))
  (at level 100, right associativity) : py_scope.
Local Open Scope py_scope.

(** [try: body except C1 as e: h1 e except C2 as e: h2 e ...]: the first
    clause whose class test accepts the exception handles it; an exception
    raised by a handler is not handled by the clauses that follow. *)
Fixpoint select_clause {A} (clauses : list ((exn -> bool) * (exn -> M A))) (e : exn)
  : option (exn -> M A) :=
  match clauses with
  | [] => None
  | (catches, handler) :: rest =>
      if catches e then Some handler else select_clause rest e
  end.

Definition try_except {A} (body : M A) (clauses : list ((exn -> bool) * (exn -> M A))) : M A :=
  fun w => match body w with
           | (w', inl e) =>
               match select_clause clauses e with
               | Some handler => handler e w'
               | None => (w', inl e)
               end
           | r => r
           end.

(** [try: body finally: final]: [final] always runs; an exception it raises
    replaces the outcome of [body]. *)
Definition try_finally {A} (body : M A) (final : M unit) : M A :=
  fun w => match body w with
           | (w', r) => match final w' with
                        | (w'', inl e) => (w'', inl e)
                        | (w'', inr _) => (w'', r)
                        end
           end.

(** A call into a client library: it is recorded, and the outside answers. *)
Definition call (c : Call) : M (returns c) :=
  fun w => (record (Called c) w, answer (outside w) c (events w)).

(** [datetime.now(timezone.utc)] *)
Definition datetime_now_utc : M datetime :=
  fun w => (record Now w, inr (utcnow (outside w) (events w))).

Definition log (level : Level) (msg : fstring) : M unit :=
  fun w => (record (Logged level msg) w, inr tt).

(** *** Generator-based context managers

    A generator function with a single [yield], run up to that [yield]:
    either it returned before yielding ([None]), or it is suspended with the
    yielded value, and goes on with [resume] when the [with] block ends
    normally and with [throw e] when the block raised [e]. *)
Record Suspended (Y : Type) : Type := {
  yielded : Y;
  resume : M unit;
  throw : exn -> M unit
}.
Arguments yielded {Y}.
Arguments resume {Y}.
Arguments throw {Y}.

Definition Generator (Y : Type) : Type := M (option (Suspended Y)).

(** [with cm as y: body y], for [cm] made by [@contextmanager].
    Entering runs the generator to its [yield]; a generator that returns
    without yielding makes [__enter__] raise [RuntimeError].  Leaving
    resumes the generator, or throws the block's exception into it; the
    exception is suppressed only if the generator then returns normally, and
    the [with] statement then ends without a value ([None]). *)
Definition with_ {Y A} (cm : Generator Y) (body : Y -> M A) : M (option A) :=
  fun w =>
    match cm w with
    | (w1, inl e) => (w1, inl e)
    | (w1, inr None) => (w1, inl (RuntimeError "generator didn't yield"))
    | (w1, inr (Some s)) =>
        match body (yielded s) w1 with
        | (w2, inr a) =>
            match resume s w2 with
            | (w3, inl e) => (w3, inl e)
            | (w3, inr _) => (w3, inr (Some a))
            end
        | (w2, inl e) =>
            match throw s e w2 with
            | (w3, inl e') => (w3, inl e')
            | (w3, inr _) => (w3, inr None)
            end
        end
    end.

(** [d[k]] *)
Definition subscript {V} (d : dict V) (k : string) : M V :=
  match dict_get d k with
  | Some v => ret v
  | None => raise (KeyError k)
  end.

(** [for x in xs: body x] *)
Fixpoint for_each {A} (xs : list A) (body : A -> M unit) : M unit :=
  match xs with
  | [] => ret tt
  | x :: xs' => body x ;; for_each xs' body
  end.

(** *** Dates

    [strftime("%Y-%m-%d")] on a UTC [datetime]: the civil date of the day
    the instant falls in, for years 1000 to 9999. *)
Module PyDate.

Definition days_since_epoch (t : datetime) : Z := t / 86400000000.

(** Proleptic Gregorian (year, month, day) of a day number. *)
Definition civil_from_days (days : Z) : Z * Z * Z :=
  let z := days + 719468 in
  let era := z / 146097 in
  let doe := z - era * 146097 in
  let yoe := (doe - doe / 1460 + doe / 36524 - doe / 146096) / 365 in
  let doy := doe - (365 * yoe + yoe / 4 - yoe / 100) in
  let mp := (5 * doy + 2) / 153 in
  let d := doy - (153 * mp + 2) / 5 + 1 in
  let m := if mp <? 10 then mp + 3 else mp - 9 in
  let y := yoe + era * 400 + (if m <=? 2 then 1 else 0) in
  (y, m, d).

Definition digit (z : Z) : ascii := ascii_of_nat (48 + Z.to_nat (z mod 10)).

(** The last [n] decimal digits of [z], zero-padded. *)
Fixpoint digits (n : nat) (z : Z) : string :=
  match n with
  | O => EmptyString
  | S n' => String.append (digits n' (z / 10)) (String (digit z) EmptyString)
  end.

Definition strftime_Ymd (t : datetime) : string :=
  let '(y, m, d) := civil_from_days (days_since_epoch t) in
  String.append (digits 4 y)
    (String.append "-" (String.append (digits 2 m) (String.append "-" (digits 2 d)))).

End PyDate.

(** ** config.py *)

Module config.

Definition DATABASE_SECRET : string := "db_creds".

(** The float literal [0.8]. *)
Definition ACCEPTABLE_ERROR_THRESHOLD : Q := 8 # 10.

Definition EMAIL_TOPIC_ARN : string :=
  "arn:aws:sns:ap-southeast-2:542726313726:Email_Alerts".

Definition SCHEDULE_NAME : string := "3_min_schedule".

Definition FUNCTIONS_TO_CHECK : list string :=
  ["ENWL_power_scraper"; "live_station_scraper"].

End config.

(** ** secrets.py *)

Module secrets.

(** The body of [_get_secret_payload]; the client call and [json.loads]
    are one fallible step, both sit in the same [try]. *)
Definition _get_secret_payload_body (secret_name : string) : M (dict string) :=
  try_except
    (call (get_secret_value secret_name))
    [ (is_ResourceNotFoundException,
        fun exc =>
          log ERROR [Lit "Secret "; Str secret_name; Lit " not found"] ;;
          raise (SecretError (String.append "Secret "
                                (String.append secret_name " not found"))));
      (is_Exception,
        fun exc =>
          log ERROR [Lit "Unable to retrieve secret. Check AWS credentials and permissions."] ;;
          raise (SecretError "Access denied to Secrets Manager")) ].

(** [@lru_cache(maxsize=1)]: a returned payload is remembered for its
    argument; an exception is not. *)
Definition _get_secret_payload (secret_name : string) : M (dict string) :=
  fun w =>
    let miss :=
      match _get_secret_payload_body secret_name w with
      | (w', inr payload) =>
          (set_secret_payload_cache (Some (secret_name, payload)) w', inr payload)
      | r => r
      end in
    match secret_payload_cache w with
    | Some (name, payload) =>
        if String.eqb name secret_name then (w, inr payload) else miss
    | None => miss
    end.

Definition get_db_config : M (dict string) :=
  payload <- _get_secret_payload config.DATABASE_SECRET ;;
  host <- subscript payload "host" ;;
  user <- subscript payload "user" ;;
  password <- subscript payload "password" ;;
  database <- subscript payload "database" ;;
  ret [("host", host); ("user", user); ("password", password); ("database", database)].

End secrets.

(** ** database.py *)

Module database.

(** [int(os.getenv("DB_POOL_SIZE", 4))] *)
Definition DB_POOL_SIZE : M Z :=
  fun w =>
    match environ (outside w) "DB_POOL_SIZE" with
    | None => (w, inr 4)
    | Some s =>
        match PyStr.int s with
        | Some z => (w, inr z)
        | None => (w, inl (ValueError "invalid literal for int() with base 10"))
        end
    end.

Definition init_pool (db_config : dict string) : M unit :=
  fun w =>
    match _POOL w with
    | Some _ => (w, inr tt)                       (* cold-start only *)
    | None =>
        (let pool_kwargs : dict kwval :=
           dict_merge (map (fun kv => (fst kv, KStr (snd kv))) db_config)
                      [("autocommit", KBool false); ("charset", KStr "utf8mb4")] in
         size <- DB_POOL_SIZE ;;
         (* a keyword given twice is a TypeError at the call *)
         match dict_get pool_kwargs "pool_name", dict_get pool_kwargs "pool_size" with
         | None, None =>
             let pool := {| pool_name := "live_station_pool";
                            pool_size := size;
                            pool_kwargs := pool_kwargs |} in
             call (MySQLConnectionPool pool) ;;
             (fun w' => (set_POOL (Some pool) w', inr tt)) ;;
             log DEBUG [Lit "Database connection pool initialized"]
         | _, _ => raise (TypeError "got multiple values for keyword argument")
         end) w
    end.

(** The part of [get_conn] from its [yield] on; [at_yield] is what the
    [yield] expression does when the generator is woken: nothing, or
    raising the exception thrown in. *)
Definition get_conn_from_yield (connection : Connection) (at_yield : M unit) : M unit :=
  try_finally
    (try_except
       (at_yield ;;
        log DEBUG [Lit "Transaction commited"] ;;
        call (connection_commit connection))
       [ (is_DatabaseError,
           fun e =>
             call (connection_rollback connection) ;;
             log ERROR [Lit "Failed to connect and commit transaction to database: "; Exc e] ;;
             raise e) ])
    (call (connection_close connection)).

Definition get_conn : Generator Connection :=
  fun w =>
    match _POOL w with
    | None => (w, inr None)                       (* return *)
    | Some pool =>
        (connection <- call (get_connection pool) ;;
         ret (Some {| yielded := connection;
                      resume := get_conn_from_yield connection (ret tt);
                      throw := fun e => get_conn_from_yield connection (raise e) |})) w
    end.

Definition get_cursor_from_yield (cursor : Cursor) (at_yield : M unit) : M unit :=
  try_finally
    (try_except at_yield [ (is_Exception, fun e => raise e) ])
    (call (cursor_close cursor)).

Definition get_cursor (connection : Connection) : Generator Cursor :=
  cursor <- call (connection_cursor connection) ;;
  log DEBUG [Lit "Cursor created"] ;;
  ret (Some {| yielded := cursor;
               resume := get_cursor_from_yield cursor (ret tt);
               throw := fun e => get_cursor_from_yield cursor (raise e) |}).

Definition SELECT_runAudits : string :=
  "
                SELECT * FROM runAudits WHERE function_name = %s 
                AND function_start_time LIKE %s
                ".

(** The result is [None] when a context manager suppressed an exception
    of the block, so that the function ends without [return]. *)
Definition return_function_rows (function_name date : string) : M (option (list AuditRow)) :=
  try_except
    (log INFO [Lit "Getting database rows for "; Str function_name; Lit " on "; Str date] ;;
     r <- with_ get_conn (fun connection =>
            with_ (get_cursor connection) (fun cursor =>
              call (cursor_execute cursor SELECT_runAudits
                      [function_name; String.append date "%"]) ;;
              result <- call (cursor_fetchall cursor) ;;
              ret result)) ;;
     match r with
     | Some (Some result) => ret (Some result)
     | _ => ret None
     end)
    [ (is_BaseException,
        fun e =>
          log WARNING [Lit "Failed to find any rows for the "; Str function_name; Lit " function"] ;;
          raise e) ].

End database.

(** ** notification.py *)

Module notification.

Definition publish_to_topic (topic_ARN : string) (error_rate : Q) (date function_name : string)
  : M unit :=
  log INFO [Lit "Health warning causing publishing to ARN topic: "; Str topic_ARN] ;;
  call (sns_publish topic_ARN
          [Lit "Error rate on for "; Str function_name; Lit " "; Str date; Lit " of ";
           Float error_rate; Lit " exceeded acceptable threshold of ";
           Float config.ACCEPTABLE_ERROR_THRESHOLD]
          [Lit "Health checker warning "; Str date]).

End notification.

(** ** utils.py *)

Module utils.

Definition get_event_bridge_schedule : M (dict string) :=
  call (get_schedule config.SCHEDULE_NAME).

Definition prior_day_calls (function_name : string) : M (option (list AuditRow)) :=
  current_utc_datetime <- datetime_now_utc ;;
  let prior_date := current_utc_datetime - timedelta 1 0 in
  let prior_date := PyDate.strftime_Ymd prior_date in
  result <- database.return_function_rows function_name prior_date ;;
  ret result.

(** One pass of the loop body of [query_parser]. *)
Definition query_parser_step (errored_rows : list ErrorEntry) (row_data : AuditRow)
  : list ErrorEntry :=
  if negb (records_written row_data =? records_read row_data) then
    errored_rows ++
      [ (run_id row_data,
         [Lit "Records read != records written: "; Int (records_written row_data);
          Lit " != "; Int (records_read row_data)]) ]
  else if (negb (String.eqb (PyStr.upper (status row_data)) "SUCCESS_WITH_DATA")
           && negb (String.eqb (PyStr.upper (status row_data)) "SUCCESS_NO_DATA"))%bool then
    errored_rows ++
      [ (run_id row_data, [Lit "Status was not successful: "; Str (status row_data)]) ]
  else errored_rows.

Definition query_parser (query_result : list AuditRow) (function_name : string)
  : M (list ErrorEntry) :=
  log INFO [Lit "Parsing database query results for function "; Str function_name] ;;
  let errored_rows := fold_left query_parser_step query_result [] in
  ret errored_rows.

Definition get_current_UTC_date : M string :=
  now <- datetime_now_utc ;;
  ret (PyDate.strftime_Ymd now).

(** [len(a) / len(b)]: true division of two lengths.  The quotient is kept
    as the exact rational; the source holds its nearest double. *)
Definition len_div_len {A B} (a : list A) (b : list B) : M Q :=
  if Nat.eqb (List.length b) 0 then raise (ZeroDivisionError "division by zero")
  else ret (inject_Z (Z.of_nat (List.length a)) / inject_Z (Z.of_nat (List.length b)))%Q.

Definition threshold_checker (errored_rows : list ErrorEntry) (query_result : list AuditRow)
           (function_name : string) : M unit :=
  error_rate <- len_div_len errored_rows query_result ;;
  if Qle_bool config.ACCEPTABLE_ERROR_THRESHOLD error_rate then
    date <- get_current_UTC_date ;;
    log WARNING
      [Lit "Error rate for "; Str function_name; Lit " health check on "; Str date;
       Lit " was "; Float error_rate; Lit ", > acceptable rate of ";
       Float config.ACCEPTABLE_ERROR_THRESHOLD] ;;
    date <- get_current_UTC_date ;;
    notification.publish_to_topic config.EMAIL_TOPIC_ARN error_rate date function_name ;;
    ret tt
  else
    date <- get_current_UTC_date ;;
    log INFO
      [Lit "Error rate for "; Str function_name; Lit " health check on "; Str date;
       Lit " was "; Float error_rate].

(** *** Start time comparison helpers (not called by the handler) *)

Definition relative_start_time (function_name : string) : M datetime :=
  query_result <- prior_day_calls function_name ;;
  match query_result with
  | None => raise (TypeError "'NoneType' object is not subscriptable")
  | Some [] => raise (IndexError "list index out of range")
  | Some (row0 :: _ as rows) =>
      ret (fold_left
             (fun earliest_date row =>
                if function_start_time row <? earliest_date
                then function_start_time row else earliest_date)
             rows (function_start_time row0))
  end.

Definition get_schedule_expression (event_bridge_response : dict string) : M string :=
  rate_expression <- subscript event_bridge_response "ScheduleExpression" ;;
  ret rate_expression.

(** The [while] loop of [generate_exp_times]. *)
Function exp_times_loop (limit : datetime) (expected_run_times : list datetime)
         (start_time : datetime) {measure (fun t => Z.to_nat (limit - t)) start_time}
  : list datetime :=
  if start_time <? limit then
    exp_times_loop limit (expected_run_times ++ [start_time]) (start_time + timedelta 0 3)
  else expected_run_times.
Proof.
  intros limit _ start_time H. apply Z.ltb_lt in H.
  unfold timedelta. lia.
Defined.

Definition generate_exp_times (function_name : string) : M (list datetime) :=
  earliest_time <- relative_start_time function_name ;;
  response <- get_event_bridge_schedule ;;
  rate_expression <- get_schedule_expression response ;;
  if negb (PyStr.contains "rate" rate_expression) then
    log WARNING
      [Lit "Cron expression used for function schedule - this functionality is not added yet"] ;;
    raise NotImplementedError
  else
    let parts := PyStr.split_on "(" rate_expression in
    match nth_error parts 1 with
    | None => raise (IndexError "list index out of range")
    | Some part1 =>
        let rate_part := PyStr.rstrip ")" part1 in
        match PyStr.split_ws rate_part with
        | [rate_value; rate] =>
            if negb (String.eqb rate "minutes") then
              log WARNING
                [Lit "Rate in different granularity to minutes used - functionality not added"] ;;
              raise NotImplementedError
            else
              let expected_run_times :=
                exp_times_loop (earliest_time + timedelta 1 0) [] earliest_time in
              log INFO [Lit "Expected schedule created"] ;;
              ret expected_run_times
        | _ => raise (ValueError "wrong number of values to unpack")
        end
    end.

(** [for call, run_time in enumerate(function_start_times):
       enumerated_run_times[call] = run_time], from index [call] on. *)
Fixpoint enumerate_into (enumerated_run_times : index_dict datetime) (call : nat)
         (function_start_times : list datetime) : index_dict datetime :=
  match function_start_times with
  | [] => enumerated_run_times
  | run_time :: rest =>
      enumerate_into (index_dict_set enumerated_run_times call run_time) (S call) rest
  end.

Definition enumerate_run_times (function_name : string) : M (index_dict datetime) :=
  query_result <- prior_day_calls function_name ;;
  match query_result with
  | None => raise (TypeError "'NoneType' object is not iterable")
  | Some query_result =>
      let function_start_times :=
        fold_left (fun times row => times ++ [function_start_time row]) query_result [] in
      let function_start_times := list_sort function_start_times in
      ret (enumerate_into [] 0 function_start_times)
  end.

(** The loop of [compare_run_times] over the indices [indices]. *)
Fixpoint compare_loop (enumerated_run_times : index_dict datetime)
         (expected_run_times : list datetime) (indices : list nat)
         (dif_times : list (dict datetime)) : M (list (dict datetime)) :=
  match indices with
  | [] => ret dif_times
  | i :: rest =>
      match index_dict_get enumerated_run_times i with
      | None => raise (KeyError "index")
      | Some actual =>
          match nth_error expected_run_times i with
          | None => raise (IndexError "list index out of range")
          | Some expected =>
              if negb (actual =? expected) then
                compare_loop enumerated_run_times expected_run_times rest
                  (dif_times ++ [[("Expected_run_time", expected);
                                  ("Actual_run_time", actual)]])
              else
                compare_loop enumerated_run_times expected_run_times rest dif_times
          end
      end
  end.

Definition compare_run_times (function_name : string) : M (list (dict datetime)) :=
  enumerated_run_times <- enumerate_run_times function_name ;;
  expected_run_times <- generate_exp_times function_name ;;
  log INFO [Int (Z.of_nat (List.length expected_run_times)); Lit " vs ";
            Int (Z.of_nat (List.length enumerated_run_times))] ;;
  compare_loop enumerated_run_times expected_run_times
    (seq 0 (List.length enumerated_run_times)) [].

End utils.

(** ** main.py *)

Module main.

(** The Lambda context object, as far as the handler looks at it: its
    [aws_request_id] attribute, if it has one. *)
Record Context : Type := { aws_request_id : option string }.

Inductive payload_value : Type := PInt (z : Z) | PStr (s : string).

(** One pass of the [for] loop of [handler].  [query_parser] starts by
    logging and then iterates over its argument, which fails on [None]. *)
Definition check_function (function_name : string) : M unit :=
  query_result <- utils.prior_day_calls function_name ;;
  match query_result with
  | Some query_result =>
      errored_rows <- utils.query_parser query_result function_name ;;
      utils.threshold_checker errored_rows query_result function_name
  | None =>
      log INFO [Lit "Parsing database query results for function "; Str function_name] ;;
      raise (TypeError "'NoneType' object is not iterable")
  end.

(** The statements of [handler] before its loop. *)
Definition startup (context : Context) : M unit :=
  match aws_request_id context with
  | None => raise (AttributeError "object has no attribute 'aws_request_id'")
  | Some _ => ret tt
  end ;;
  log INFO [Lit "Starting health check"] ;;
  db_config <- secrets.get_db_config ;;
  database.init_pool db_config.

Definition success_payload : dict payload_value :=
  [("status code", PInt 200); ("body", PStr "Health check completed successfully")].

Definition handler {Ev : Type} (event : Ev) (context : Context) : M (dict payload_value) :=
  try_except
    (startup context ;;
     for_each config.FUNCTIONS_TO_CHECK check_function ;;
     ret success_payload)
    [ (is_Exception,
        fun e =>
          log ERROR [Lit "Error occured at main function call: "; Exc e] ;;
          raise e) ].

End main.

(** ** app.py *)

Module app.

(** A payload value as a log message. *)
Definition message_of (v : main.payload_value) : fstring :=
  match v with
  | main.PInt z => [Int z]
  | main.PStr s => [Str s]
  end.

Definition lambda_handler {Ev : Type} (event : Ev) (context : main.Context)
  : M (dict main.payload_value) :=
  result <- main.handler event context ;;
  body <- subscript result "body" ;;
  log INFO (message_of body) ;;
  ret result.

End app.

(** ** Observations on a history *)

(** The notifications published so far: topic, message and subject of each
    [publish] call, oldest first. *)
Fixpoint published (h : list Event) : list (string * fstring * fstring) :=
  match h with
  | [] => []
  | Called (sns_publish topic message subject) :: h' => (topic, message, subject) :: published h'
  | _ :: h' => published h'
  end.

(** The notification that [publish_to_topic] sends to the alerts topic about
    the function [f], for some error rate and some date. *)
Definition notification_about (f : string) (n : string * fstring * fstring) : Prop :=
  exists error_rate date,
    n = (config.EMAIL_TOPIC_ARN,
         [Lit "Error rate on for "; Str f; Lit " "; Str date; Lit " of ";
          Float error_rate; Lit " exceeded acceptable threshold of ";
          Float config.ACCEPTABLE_ERROR_THRESHOLD],
         [Lit "Health checker warning "; Str date]).

(** Nothing, or one notification about [f]. *)
Definition at_most_one_about (f : string) (new : list (string * fstring * fstring)) : Prop :=
  new = [] \/ exists n, new = [n] /\ notification_about f n.

(** The computation [m] leaves the observation [obs] of the world as it
    found it. *)
Definition preserves {X A} (obs : World -> X) (m : M A) : Prop :=
  forall w, obs (fst (m w)) = obs w.

(** The positions at which two lists of times differ, as far as both reach:
    the entry of each such position, in the order of the positions. *)
Fixpoint differences (actual expected : list datetime) : list (dict datetime) :=
  match actual, expected with
  | a :: actual', e :: expected' =>
      if a =? e then differences actual' expected'
      else [("Expected_run_time", e); ("Actual_run_time", a)]
             :: differences actual' expected'
  | _, _ => []
  end.

(** The observation [obs] does not see the event [e]. *)
Definition ignores {X} (obs : World -> X) (e : Event) : Prop :=
  forall w, obs (record e w) = obs w.

(** A context manager whose every part preserves the observation. *)
Definition preserves_cm {X Y} (obs : World -> X) (cm : Generator Y) : Prop :=
  preserves obs cm /\
  forall w w1 s, cm w = (w1, inr (Some s)) ->
    preserves obs (resume s) /\ forall e, preserves obs (throw s e).

(** Every event but a [publish] call. *)
Definition not_a_publish (e : Event) : Prop :=
  match e with
  | Called (sns_publish _ _ _) => False
  | _ => True
  end.

(** No client library call raises on the outside [o]. *)
Definition never_raises (o : Outside) : Prop :=
  forall (c : Call) (h : list Event), exists v, answer o c h = inr v.

(** The methods of connection [c] never raise on the outside [o]. *)
Definition methods_succeed (c : Connection) (o : Outside) : Prop :=
  forall h,
    answer o (connection_commit c) h = inr tt /\
    answer o (connection_rollback c) h = inr tt /\
    answer o (connection_close c) h = inr tt.

(** ** The Audit Evaluator as the specification words it *)

Module Spec.

Definition same_ignoring_case (a b : string) : bool :=
  String.eqb (PyStr.upper a) (PyStr.upper b).

Definition success_status (s : string) : bool :=
  (same_ignoring_case s "SUCCESS_WITH_DATA" || same_ignoring_case s "SUCCESS_NO_DATA")%bool.

Definition mismatch_reason (r : AuditRow) : fstring :=
  [Lit "Records read != records written: "; Int (records_written r);
   Lit " != "; Int (records_read r)].

Definition non_success_reason (r : AuditRow) : fstring :=
  [Lit "Status was not successful: "; Str (status r)].

(** The verdict on one row: flagged for a mismatch whatever its status,
    else flagged for a status outside the success set, else passed. *)
Definition classify_row (r : AuditRow) : option ErrorEntry :=
  if Z.eq_dec (records_written r) (records_read r) then
    if success_status (status r) then None
    else Some (run_id r, non_success_reason r)
  else Some (run_id r, mismatch_reason r).

(** The entries of the flagged rows, in the order of the rows. *)
Fixpoint classify (rows : list AuditRow) : list ErrorEntry :=
  match rows with
  | [] => []
  | r :: rows' =>
      match classify_row r with
      | Some entry => entry :: classify rows'
      | None => classify rows'
      end
  end.

(** A row that passes: equal counts and a success status. *)
Definition passes (r : AuditRow) : Prop :=
  records_written r = records_read r /\ success_status (status r) = true.

End Spec.

(** ** Concrete worlds

    Outsides on which the definitions can be run: a database that holds a
    given table and a clock that stands at a given instant. *)

Module Scenario.

Definition row (id : Z) (name : string) (start : datetime) (written read : Z) (st : string)
  : AuditRow :=
  {| run_id := id; function_name := name; function_start_time := start;
     records_written := written; records_read := read; status := st |}.

(** The first parameter of the statement executed last. *)
Fixpoint last_executed (h : list Event) (found : option string) : option string :=
  match h with
  | [] => found
  | Called (cursor_execute _ _ (p :: _)) :: h' => last_executed h' (Some p)
  | _ :: h' => last_executed h' found
  end.

(** Every call succeeds; [fetchall] returns the rows of [table] whose
    function name was asked for; the schedule is [expression]. *)
Definition calm_answer (table : list AuditRow) (expression : string)
           (c : Call) (h : list Event) : exn + returns c :=
  match c return exn + returns c with
  | get_secret_value _ =>
      inr [("host", "db.local"); ("user", "checker"); ("password", "pw");
           ("database", "audits")]
  | MySQLConnectionPool _ => inr tt
  | get_connection _ => inr 1%nat
  | connection_cursor _ => inr 2%nat
  | cursor_execute _ _ _ => inr tt
  | cursor_fetchall _ =>
      inr (match last_executed h None with
           | Some name => filter (fun r => String.eqb (function_name r) name) table
           | None => []
           end)
  | cursor_close _ => inr tt
  | connection_commit _ => inr tt
  | connection_rollback _ => inr tt
  | connection_close _ => inr tt
  | sns_publish _ _ _ => inr tt
  | get_schedule _ => inr [("ScheduleExpression", expression)]
  end.

(** As [calm_answer], but the calls singled out by [bad] raise. *)
Definition failing_answer (bad : Call -> option exn) (table : list AuditRow)
           (expression : string) (c : Call) (h : list Event) : exn + returns c :=
  match bad c with
  | Some e => inl e
  | None => calm_answer table expression c h
  end.

Definition failing (bad : Call -> option exn) (table : list AuditRow)
           (expression : string) (now : datetime) : Outside :=
  {| utcnow := fun _ => now;
     environ := fun _ => None;
     answer := failing_answer bad table expression |}.

Definition calm (table : list AuditRow) (expression : string) (now : datetime) : Outside :=
  {| utcnow := fun _ => now;
     environ := fun _ => None;
     answer := calm_answer table expression |}.

(** A freshly started process. *)
Definition cold (o : Outside) : World :=
  {| outside := o; _POOL := None; secret_payload_cache := None; events := [] |}.

(** 2025-10-27T05:48:46Z *)
Definition t_check : datetime := 1761544126000000.

(** 2025-10-26T00:01:00Z *)
Definition t_first : datetime := 1761436860000000.

Definition table1 : list AuditRow :=
  [ row 1 "ENWL_power_scraper" t_first 5 3 "FAIL";
    row 2 "live_station_scraper" t_first 5 5 "SUCCESS_WITH_DATA";
    row 3 "live_station_scraper" (t_first + timedelta 0 3) 3 5 "SUCCESS_NO_DATA" ].

Definition pool1 : Pool :=
  {| pool_name := "live_station_pool"; pool_size := 4;
     pool_kwargs := [("host", KStr "db.local"); ("autocommit", KBool false)] |}.

(** A process whose pool is initialised. *)
Definition warm (o : Outside) : World :=
  {| outside := o; _POOL := Some pool1; secret_payload_cache := None; events := [] |}.

Definition w_warm : World := warm (calm table1 "rate(5 minutes)" t_check).

Definition context1 : main.Context := {| main.aws_request_id := Some "request-1" |}.

(** The database is down: no connection can be had. *)
Definition no_connection (c : Call) : option exn :=
  match c with
  | get_connection _ => Some (LibraryError "PoolError" "Failed getting connection")
  | _ => None
  end.

(** The connection works, but it gives no cursor. *)
Definition no_cursor (c : Call) : option exn :=
  match c with
  | connection_cursor _ => Some (LibraryError "OperationalError" "MySQL Connection not available")
  | _ => None
  end.

(** The statement fails. *)
Definition no_execute (c : Call) : option exn :=
  match c with
  | cursor_execute _ _ _ => Some (LibraryError "ProgrammingError" "Table does not exist")
  | _ => None
  end.

(** The secret does not exist. *)
Definition no_secret (c : Call) : option exn :=
  match c with
  | get_secret_value _ => Some (ResourceNotFoundException "Secrets Manager can't find the specified secret.")
  | _ => None
  end.

(** The database refuses the pool's connections. *)
Definition no_pool (c : Call) : option exn :=
  match c with
  | MySQLConnectionPool _ => Some (LibraryError "InterfaceError" "Can't connect to MySQL server")
  | _ => None
  end.

(** The topic cannot be published to. *)
Definition no_publish (c : Call) : option exn :=
  match c with
  | sns_publish _ _ _ => Some (LibraryError "ClientError" "AuthorizationError")
  | _ => None
  end.

Definition w_down (bad : Call -> option exn) : World :=
  warm (failing bad table1 "rate(5 minutes)" t_check).

Definition w_cold : World := cold (calm table1 "rate(5 minutes)" t_check).

(** One row, counts 5 and 3, status FAIL. *)
Definition rows_fail : list AuditRow :=
  [ row 1 "ENWL_power_scraper" t_first 5 3 "FAIL" ].

Definition errs_fail : list ErrorEntry :=
  [ (1, [Lit "Records read != records written: "; Int 5; Lit " != "; Int 3]) ].

(** Two rows that pass, the second with its status in lower case. *)
Definition rows_pass : list AuditRow :=
  [ row 4 "live_station_scraper" t_first 5 5 "SUCCESS_WITH_DATA";
    row 5 "live_station_scraper" (t_first + timedelta 0 3) 0 0 "success_no_data" ].

(** Two rows, the second with counts 3 and 5. *)
Definition rows_half : list AuditRow :=
  [ row 2 "live_station_scraper" t_first 5 5 "SUCCESS_WITH_DATA";
    row 3 "live_station_scraper" (t_first + timedelta 0 3) 3 5 "SUCCESS_NO_DATA" ].

End Scenario.

(** * Properties *)

(** ** The monad *)

Lemma bind_ret_l : forall A B (a : A) (k : A -> M B) w, bind (ret a) k w = k a w.
Proof. reflexivity. Qed.

Lemma bind_raise_l : forall A B e (k : A -> M B) w, bind (raise e) k w = (w, inl e).
Proof. reflexivity. Qed.

Lemma bind_ok : forall A B (m : M A) (k : A -> M B) w w' a,
  m w = (w', inr a) -> bind m k w = k a w'.
Proof. intros A B m k w w' a H. unfold bind. rewrite H. reflexivity. Qed.

Lemma published_app : forall h1 h2, published (h1 ++ h2) = published h1 ++ published h2.
Proof.
  induction h1 as [|e h1 IH]; intro h2; [reflexivity|].
  destruct e as [lvl msg| |c]; simpl; try apply IH.
  destruct c; simpl; try apply IH. now rewrite IH.
Qed.

(** ** The Audit Evaluator *)

Lemma upper_SUCCESS_WITH_DATA : PyStr.upper "SUCCESS_WITH_DATA" = "SUCCESS_WITH_DATA".
Proof. reflexivity. Qed.

Lemma upper_SUCCESS_NO_DATA : PyStr.upper "SUCCESS_NO_DATA" = "SUCCESS_NO_DATA".
Proof. reflexivity. Qed.

(** A pass of the source loop appends what the specification's verdict on
    the row says. *)
Lemma query_parser_step_classify_row : forall acc r,
  utils.query_parser_step acc r =
  acc ++ match Spec.classify_row r with Some entry => [entry] | None => [] end.
Proof.
  intros acc r. unfold utils.query_parser_step, Spec.classify_row,
    Spec.success_status, Spec.same_ignoring_case.
  rewrite upper_SUCCESS_WITH_DATA, upper_SUCCESS_NO_DATA.
  destruct (Z.eq_dec (records_written r) (records_read r)) as [E|N].
  - rewrite (proj2 (Z.eqb_eq _ _) E). simpl.
    destruct (String.eqb (PyStr.upper (status r)) "SUCCESS_WITH_DATA");
      destruct (String.eqb (PyStr.upper (status r)) "SUCCESS_NO_DATA");
      simpl; try reflexivity; now rewrite app_nil_r.
  - rewrite (proj2 (Z.eqb_neq _ _) N). reflexivity.
Qed.

Lemma fold_query_parser_step : forall rows acc,
  fold_left utils.query_parser_step rows acc = acc ++ Spec.classify rows.
Proof.
  induction rows as [|r rows IH]; intro acc; simpl.
  - now rewrite app_nil_r.
  - rewrite IH, query_parser_step_classify_row.
    destruct (Spec.classify_row r); simpl.
    + now rewrite <- app_assoc.
    + now rewrite app_nil_r.
Qed.

Lemma classify_app : forall xs ys,
  Spec.classify (xs ++ ys) = Spec.classify xs ++ Spec.classify ys.
Proof.
  induction xs as [|x xs IH]; intro ys; simpl; [reflexivity|].
  rewrite IH. now destruct (Spec.classify_row x).
Qed.

Lemma classify_length : forall rows,
  (List.length (Spec.classify rows) <= List.length rows)%nat.
Proof.
  induction rows as [|r rows IH]; simpl; [lia|].
  destruct (Spec.classify_row r); simpl; lia.
Qed.

Lemma classify_passes : forall rows, Forall Spec.passes rows -> Spec.classify rows = [].
Proof.
  induction 1 as [|r rows [Hc Hs] _ IH]; simpl; [reflexivity|].
  unfold Spec.classify_row. destruct (Z.eq_dec _ _) as [_|N]; [|contradiction].
  now rewrite Hs.
Qed.

Lemma query_parser_returns : forall rows f w,
  snd (utils.query_parser rows f w) = inr (Spec.classify rows).
Proof.
  intros. unfold utils.query_parser, bind, log, ret. simpl.
  now rewrite fold_query_parser_step.
Qed.

(** C1.  [query_parser] logs one line and returns, for the rows in their
    order, the entry of every flagged row: a row whose counts differ is
    flagged with the mismatch reason whatever its status; a row with equal
    counts is flagged with the non-success reason when its status, compared
    without regard to case, is neither SUCCESS_WITH_DATA nor SUCCESS_NO_DATA;
    any other row gives no entry. *)
Theorem query_parser_flags_rows_in_order : forall rows f w,
  utils.query_parser rows f w =
  (record (Logged INFO [Lit "Parsing database query results for function "; Str f]) w,
   inr (Spec.classify rows)).
Proof.
  intros rows f w. unfold utils.query_parser, bind, log, ret.
  now rewrite fold_query_parser_step.
Qed.

(** C10.  The entries [query_parser] returns for a concatenation are those
    of the parts, concatenated; they do not depend on the function name nor
    on the world; one row gives at most one entry, so there are never more
    entries than rows. *)
Theorem query_parser_rows_independent : forall xs ys f g w1 w2 w3 w4,
  exists ex ey,
    snd (utils.query_parser xs f w1) = inr ex /\
    snd (utils.query_parser ys f w2) = inr ey /\
    snd (utils.query_parser (xs ++ ys) f w3) = inr (ex ++ ey) /\
    snd (utils.query_parser xs g w4) = inr ex /\
    (List.length ex <= List.length xs)%nat /\
    (forall r, exists e1,
        snd (utils.query_parser [r] f w1) = inr e1 /\ (List.length e1 <= 1)%nat).
Proof.
  intros. exists (Spec.classify xs), (Spec.classify ys).
  rewrite !query_parser_returns, classify_app.
  repeat split; try reflexivity.
  - apply classify_length.
  - intro r. exists (Spec.classify [r]). rewrite query_parser_returns.
    split; [reflexivity|]. apply (classify_length [r]).
Qed.

(** ** The error rate *)

Lemma len_div_len_nonempty : forall A B (a : list A) (b : list B) w,
  b <> [] ->
  utils.len_div_len a b w =
  (w, inr (inject_Z (Z.of_nat (List.length a)) / inject_Z (Z.of_nat (List.length b)))%Q).
Proof.
  intros A B a b w Hb. unfold utils.len_div_len.
  destruct b as [|x b]; [contradiction|]. reflexivity.
Qed.

Lemma len_div_len_empty : forall A B (a : list A) w,
  utils.len_div_len a (@nil B) w = (w, inl (ZeroDivisionError "division by zero")).
Proof. reflexivity. Qed.

Lemma quotient_of_lengths : forall a b : nat,
  (0 < b)%nat ->
  (inject_Z (Z.of_nat a) / inject_Z (Z.of_nat b) == Z.of_nat a # Pos.of_nat b)%Q.
Proof.
  intros a b Hb. rewrite Qmake_Qdiv.
  replace (Z.pos (Pos.of_nat b)) with (Z.of_nat b); [reflexivity|].
  destruct b as [|b]; [lia|]. rewrite <- Pos.of_nat_succ. reflexivity.
Qed.

Lemma quotient_of_lengths_bounds : forall a b : nat,
  (a <= b)%nat -> (0 < b)%nat ->
  (0 <= Z.of_nat a # Pos.of_nat b)%Q /\ (Z.of_nat a # Pos.of_nat b <= 1)%Q.
Proof.
  intros a b Hab Hb. unfold Qle. simpl.
  assert (Z.pos (Pos.of_nat b) = Z.of_nat b) as E.
  { destruct b as [|b]; [lia|]. rewrite <- Pos.of_nat_succ. reflexivity. }
  rewrite E. lia.
Qed.

Lemma record_all_record_all : forall es1 es2 w,
  record_all es2 (record_all es1 w) = record_all (es1 ++ es2) w.
Proof. intros. unfold record_all. simpl. now rewrite <- app_assoc. Qed.

Lemma record_as_record_all : forall e w, record e w = record_all [e] w.
Proof. reflexivity. Qed.

(** The date [get_current_UTC_date] returns when the history is [h]. *)
Lemma get_current_UTC_date_reads_clock : forall w,
  utils.get_current_UTC_date w =
  (record Now w, inr (PyDate.strftime_Ymd (utcnow (outside w) (events w)))).
Proof. reflexivity. Qed.

(** [threshold_checker] when the rate is below the threshold. *)
Lemma threshold_checker_below : forall errs rows f w q,
  utils.len_div_len errs rows w = (w, inr q) ->
  Qle_bool config.ACCEPTABLE_ERROR_THRESHOLD q = false ->
  utils.threshold_checker errs rows f w =
  (record_all
     [Now;
      Logged INFO
        [Lit "Error rate for "; Str f; Lit " health check on ";
         Str (PyDate.strftime_Ymd (utcnow (outside w) (events w)));
         Lit " was "; Float q]] w,
   inr tt).
Proof.
  intros errs rows f w q Hq Hlt. unfold utils.threshold_checker.
  rewrite (bind_ok _ _ _ _ _ _ _ Hq), Hlt.
  unfold bind. rewrite get_current_UTC_date_reads_clock.
  unfold log. rewrite !record_as_record_all, record_all_record_all. reflexivity.
Qed.

(** [threshold_checker] when the rate reaches the threshold: the date in
    the notification is read from the clock after the warning is logged. *)
Lemma threshold_checker_reached : forall errs rows f w q,
  utils.len_div_len errs rows w = (w, inr q) ->
  Qle_bool config.ACCEPTABLE_ERROR_THRESHOLD q = true ->
  let warned :=
    [Now;
     Logged WARNING
       [Lit "Error rate for "; Str f; Lit " health check on ";
        Str (PyDate.strftime_Ymd (utcnow (outside w) (events w)));
        Lit " was "; Float q; Lit ", > acceptable rate of ";
        Float config.ACCEPTABLE_ERROR_THRESHOLD]] in
  let date := PyDate.strftime_Ymd (utcnow (outside w) (events w ++ warned)) in
  let announced :=
    warned ++
    [Now;
     Logged INFO [Lit "Health warning causing publishing to ARN topic: ";
                  Str config.EMAIL_TOPIC_ARN]] in
  let publish :=
    sns_publish config.EMAIL_TOPIC_ARN
      [Lit "Error rate on for "; Str f; Lit " "; Str date; Lit " of ";
       Float q; Lit " exceeded acceptable threshold of ";
       Float config.ACCEPTABLE_ERROR_THRESHOLD]
      [Lit "Health checker warning "; Str date] in
  utils.threshold_checker errs rows f w =
  (record_all (announced ++ [Called publish]) w,
   match answer (outside w) publish (events w ++ announced) with
   | inl e => inl e
   | inr _ => inr tt
   end).
Proof.
  intros errs rows f w q Hq Hge. cbv zeta. unfold utils.threshold_checker.
  rewrite (bind_ok _ _ _ _ _ _ _ Hq), Hge.
  unfold bind. rewrite get_current_UTC_date_reads_clock.
  unfold log. rewrite get_current_UTC_date_reads_clock.
  unfold notification.publish_to_topic, bind, log, call, ret.
  rewrite !record_as_record_all, !record_all_record_all. simpl.
  rewrite <- ?app_assoc. simpl.
  destruct (answer (outside w) _ _) as [e|[]]; reflexivity.
Qed.

(** Either way the first thing recorded after the clock is read is a log
    line whose sixth part is the rate. *)
Lemma threshold_checker_reports : forall errs rows f w q,
  utils.len_div_len errs rows w = (w, inr q) ->
  exists level msg rest,
    events (fst (utils.threshold_checker errs rows f w)) =
      events w ++ Now :: Logged level msg :: rest /\
    nth_error msg 5 = Some (Float q).
Proof.
  intros errs rows f w q Hq.
  destruct (Qle_bool config.ACCEPTABLE_ERROR_THRESHOLD q) eqn:Hcmp.
  - rewrite (threshold_checker_reached _ _ f _ _ Hq Hcmp).
    do 3 eexists. split; reflexivity.
  - rewrite (threshold_checker_below _ _ f _ _ Hq Hcmp).
    do 3 eexists. split; reflexivity.
Qed.

(** C3.  For a non-empty query result, the rate [threshold_checker] computes
    from the entries [query_parser] returned is their number divided by the
    number of rows; it lies between 0 and 1, it is the rate the checker
    reports, and when every row passes there is no entry and the rate is 0. *)
Theorem error_rate_is_flagged_over_total : forall rows f w w',
  rows <> [] ->
  exists errs q,
    snd (utils.query_parser rows f w) = inr errs /\
    utils.len_div_len errs rows w' = (w', inr q) /\
    (q == Z.of_nat (List.length errs) # Pos.of_nat (List.length rows))%Q /\
    (0 <= q)%Q /\ (q <= 1)%Q /\
    (exists level msg rest,
        events (fst (utils.threshold_checker errs rows f w')) =
          events w' ++ Now :: Logged level msg :: rest /\
        nth_error msg 5 = Some (Float q)) /\
    (Forall Spec.passes rows -> errs = [] /\ (q == 0)%Q).
Proof.
  intros rows f w w' Hrows.
  assert (0 < List.length rows)%nat as Hlen
    by (destruct rows; [contradiction | simpl; lia]).
  exists (Spec.classify rows). eexists.
  split; [apply query_parser_returns|].
  split; [apply len_div_len_nonempty; assumption|].
  pose proof (quotient_of_lengths (List.length (Spec.classify rows)) _ Hlen) as Hq.
  pose proof (quotient_of_lengths_bounds _ _ (classify_length rows) Hlen) as [H0 H1].
  split; [exact Hq|].
  split; [rewrite Hq; exact H0|].
  split; [rewrite Hq; exact H1|].
  split; [apply threshold_checker_reports, len_div_len_nonempty; assumption|].
  intro Hpass. rewrite (classify_passes rows Hpass).
  split; [reflexivity|]. simpl. unfold Qdiv. apply Qmult_0_l.
Qed.

(** C4.  On an empty row set [threshold_checker] raises
    [ZeroDivisionError] at once: the world is untouched, so nothing is
    logged and no notification is published. *)
Theorem threshold_checker_empty_rows_divides_by_zero : forall errs f w,
  utils.threshold_checker errs [] f w = (w, inl (ZeroDivisionError "division by zero")) /\
  published (events (fst (utils.threshold_checker errs [] f w))) = published (events w).
Proof.
  intros errs f w. split; reflexivity.
Qed.

Lemma error_rate_is_flagged_over_total_witness :
  Scenario.rows_pass <> [] /\
  Forall Spec.passes Scenario.rows_pass /\
  exists errs q,
    snd (utils.query_parser Scenario.rows_pass "live_station_scraper" Scenario.w_warm)
      = inr errs /\
    utils.len_div_len errs Scenario.rows_pass Scenario.w_warm = (Scenario.w_warm, inr q) /\
    (0 <= q)%Q /\ (q <= 1)%Q /\
    errs = [] /\ (q == 0)%Q.
Proof.
  assert (Scenario.rows_pass <> []) as Hne by discriminate.
  assert (Forall Spec.passes Scenario.rows_pass) as Hpass
    by (repeat constructor).
  split; [exact Hne|]. split; [exact Hpass|].
  destruct (error_rate_is_flagged_over_total Scenario.rows_pass "live_station_scraper"
              Scenario.w_warm Scenario.w_warm Hne)
    as (errs & q & H1 & H2 & _ & H4 & H5 & _ & H7).
  destruct (H7 Hpass) as [H8 H9].
  exists errs, q. repeat split; assumption.
Defined.

(** ** The notification *)

(** The claim that the notification carries the prior-day date fails: with
    the clock at 2025-10-27T05:48:46Z the rows asked for are those of
    2025-10-26, the one row found is flagged, the rate is 1, and the one
    notification published carries 2025-10-27. *)
Lemma notification_carries_the_day_of_the_check :
  let w' := fst (main.check_function "ENWL_power_scraper" Scenario.w_warm) in
  PyDate.strftime_Ymd (Scenario.t_check - timedelta 1 0) = "2025-10-26" /\
  In (Called (cursor_execute 2%nat database.SELECT_runAudits
                ["ENWL_power_scraper"; "2025-10-26%"])) (events w') /\
  published (events w') =
    [ (config.EMAIL_TOPIC_ARN,
       [Lit "Error rate on for "; Str "ENWL_power_scraper"; Lit " "; Str "2025-10-27";
        Lit " of "; Float 1; Lit " exceeded acceptable threshold of ";
        Float config.ACCEPTABLE_ERROR_THRESHOLD],
       [Lit "Health checker warning "; Str "2025-10-27"]) ] /\
  (forall topic message subject,
      In (topic, message, subject) (published (events w')) ->
      ~ In (Str "2025-10-26") message).
Proof.
  vm_compute. split; [reflexivity|]. split; [tauto|]. split; [reflexivity|].
  intros topic message subject [H|[]]. injection H as _ <- _.
  intro Hin. repeat (destruct Hin as [Hin|Hin]; [discriminate|]). exact Hin.
Qed.

(** C2, amended.  For a non-empty row set, a rate at or above the threshold
    makes [threshold_checker] publish exactly one notification, to the
    alerts topic; its message carries the function's name, the rate, and the
    date the clock shows at the read that immediately precedes the publish
    call, that is the day the check runs.  A rate below the threshold
    publishes nothing. *)
Theorem threshold_checker_notifies_at_threshold : forall errs rows f w,
  rows <> [] ->
  let q := (inject_Z (Z.of_nat (List.length errs)) /
            inject_Z (Z.of_nat (List.length rows)))%Q in
  let w' := fst (utils.threshold_checker errs rows f w) in
  ((config.ACCEPTABLE_ERROR_THRESHOLD <= q)%Q ->
   exists h date,
     events w' =
       h ++ [Now;
             Logged INFO [Lit "Health warning causing publishing to ARN topic: ";
                          Str config.EMAIL_TOPIC_ARN];
             Called (sns_publish config.EMAIL_TOPIC_ARN
                       [Lit "Error rate on for "; Str f; Lit " "; Str date; Lit " of ";
                        Float q; Lit " exceeded acceptable threshold of ";
                        Float config.ACCEPTABLE_ERROR_THRESHOLD]
                       [Lit "Health checker warning "; Str date])] /\
     date = PyDate.strftime_Ymd (utcnow (outside w) h) /\
     published (events w') =
       published (events w) ++
       [ (config.EMAIL_TOPIC_ARN,
          [Lit "Error rate on for "; Str f; Lit " "; Str date; Lit " of ";
           Float q; Lit " exceeded acceptable threshold of ";
           Float config.ACCEPTABLE_ERROR_THRESHOLD],
          [Lit "Health checker warning "; Str date]) ]) /\
  ((q < config.ACCEPTABLE_ERROR_THRESHOLD)%Q ->
   published (events w') = published (events w)).
Proof.
  intros errs rows f w Hrows q w'.
  pose proof (len_div_len_nonempty _ _ errs rows w Hrows) as Hq.
  change (utils.len_div_len errs rows w = (w, inr q)) in Hq.
  split.
  - intro Hge. apply Qle_bool_iff in Hge.
    pose proof (threshold_checker_reached errs rows f w q Hq Hge) as H.
    cbv zeta in H. subst w'. rewrite H. clear H.
    cbn [fst record_all events].
    exists (events w ++
            [Now;
             Logged WARNING
               [Lit "Error rate for "; Str f; Lit " health check on ";
                Str (PyDate.strftime_Ymd (utcnow (outside w) (events w)));
                Lit " was "; Float q; Lit ", > acceptable rate of ";
                Float config.ACCEPTABLE_ERROR_THRESHOLD]]).
    eexists. split; [|split; [reflexivity|]].
    + rewrite <- !app_assoc. reflexivity.
    + rewrite published_app. reflexivity.
  - intro Hlt.
    assert (Qle_bool config.ACCEPTABLE_ERROR_THRESHOLD q = false) as Hcmp.
    { destruct (Qle_bool config.ACCEPTABLE_ERROR_THRESHOLD q) eqn:E; [|reflexivity].
      apply Qle_bool_iff in E. exfalso. exact (Qlt_not_le _ _ Hlt E). }
    subst w'. rewrite (threshold_checker_below errs rows f w q Hq Hcmp).
    cbn [fst record_all events]. rewrite published_app. apply app_nil_r.
Qed.

Lemma threshold_checker_notifies_at_threshold_witness :
  let q := (inject_Z (Z.of_nat (List.length Scenario.errs_fail)) /
            inject_Z (Z.of_nat (List.length Scenario.rows_fail)))%Q in
  let w' := fst (utils.threshold_checker Scenario.errs_fail Scenario.rows_fail
                   "ENWL_power_scraper" Scenario.w_warm) in
  Scenario.rows_fail <> [] /\
  (config.ACCEPTABLE_ERROR_THRESHOLD <= q)%Q /\
  exists h date,
    events w' =
      h ++ [Now;
            Logged INFO [Lit "Health warning causing publishing to ARN topic: ";
                         Str config.EMAIL_TOPIC_ARN];
            Called (sns_publish config.EMAIL_TOPIC_ARN
                      [Lit "Error rate on for "; Str "ENWL_power_scraper"; Lit " "; Str date;
                       Lit " of "; Float q; Lit " exceeded acceptable threshold of ";
                       Float config.ACCEPTABLE_ERROR_THRESHOLD]
                      [Lit "Health checker warning "; Str date])] /\
    date = PyDate.strftime_Ymd (utcnow (outside Scenario.w_warm) h) /\
    published (events w') =
      published (events Scenario.w_warm) ++
      [ (config.EMAIL_TOPIC_ARN,
         [Lit "Error rate on for "; Str "ENWL_power_scraper"; Lit " "; Str date;
          Lit " of "; Float q; Lit " exceeded acceptable threshold of ";
          Float config.ACCEPTABLE_ERROR_THRESHOLD],
         [Lit "Health checker warning "; Str date]) ].
Proof.
  intros q w'.
  assert (Scenario.rows_fail <> []) as Hne by discriminate.
  assert (config.ACCEPTABLE_ERROR_THRESHOLD <= q)%Q as Hge
    by (unfold Qle; simpl; lia).
  split; [exact Hne|]. split; [exact Hge|].
  exact (proj1 (threshold_checker_notifies_at_threshold
                  Scenario.errs_fail Scenario.rows_fail "ENWL_power_scraper"
                  Scenario.w_warm Hne) Hge).
Defined.

(** ** The connection scope *)

Lemma get_conn_enters : forall w pool c,
  _POOL w = Some pool ->
  answer (outside w) (get_connection pool) (events w) = inr c ->
  database.get_conn w =
  (record (Called (get_connection pool)) w,
   inr (Some {| yielded := c;
                resume := database.get_conn_from_yield c (ret tt);
                throw := fun e => database.get_conn_from_yield c (raise e) |})).
Proof.
  intros w pool c HP Hc. unfold database.get_conn. rewrite HP.
  unfold bind, call, ret. rewrite Hc. reflexivity.
Qed.

Lemma get_conn_not_initialised : forall w,
  _POOL w = None -> database.get_conn w = (w, inr None).
Proof. intros w HP. unfold database.get_conn. now rewrite HP. Qed.

(** [finally: connection.close()] records the call last, whatever came
    before. *)
Lemma try_finally_close : forall A (body : M A) c w w1 r,
  body w = (w1, r) ->
  try_finally body (call (connection_close c)) w =
  (record (Called (connection_close c)) w1,
   match answer (outside w1) (connection_close c) (events w1) with
   | inl e => inl e
   | inr _ => r
   end).
Proof.
  intros A body c w w1 r H. unfold try_finally, call. rewrite H.
  now destruct (answer (outside w1) (connection_close c) (events w1)).
Qed.

(** The [except DatabaseError] handler of [get_conn]. *)
Lemma get_conn_handler : forall c e w,
  exists w1 r rest,
    (call (connection_rollback c) ;;
     log ERROR [Lit "Failed to connect and commit transaction to database: "; Exc e] ;;
     raise e)%py w = (w1, (inl r : exn + unit)) /\
    outside w1 = outside w /\
    events w1 = events w ++ Called (connection_rollback c) :: rest /\
    (methods_succeed c (outside w) ->
     rest = [Logged ERROR [Lit "Failed to connect and commit transaction to database: ";
                           Exc e]] /\ r = e).
Proof.
  intros c e w. unfold bind, call, log, raise.
  destruct (answer (outside w) (connection_rollback c) (events w)) as [e1|[]] eqn:Hr.
  - exists (record (Called (connection_rollback c)) w), e1, [].
    split; [reflexivity|]. split; [reflexivity|]. split; [reflexivity|].
    intro Hm. destruct (Hm (events w)) as (_ & Hm2 & _). congruence.
  - do 3 eexists. split; [reflexivity|]. split; [reflexivity|]. split.
    + simpl. rewrite <- app_assoc. reflexivity.
    + intros _. split; reflexivity.
Qed.

Lemma try_except_returned : forall A (body : M A) clauses w w' a,
  body w = (w', inr a) -> try_except body clauses w = (w', inr a).
Proof. intros A body clauses w w' a H. unfold try_except. now rewrite H. Qed.

Lemma try_except_caught : forall A (body : M A) catches handler w w' e,
  body w = (w', inl e) ->
  catches e = true ->
  try_except body [(catches, handler)] w = handler e w'.
Proof.
  intros A body catches handler w w' e H Hc. unfold try_except.
  rewrite H. simpl. now rewrite Hc.
Qed.

Lemma try_except_passed : forall A (body : M A) catches handler w w' e,
  body w = (w', inl e) ->
  catches e = false ->
  try_except body [(catches, handler)] w = (w', inl e).
Proof.
  intros A body catches handler w w' e H Hc. unfold try_except.
  rewrite H. simpl. now rewrite Hc.
Qed.

(** The [try] block of [get_conn] after a normal end of the [with] block. *)
Lemma get_conn_commit_step : forall c w,
  (ret tt ;; log DEBUG [Lit "Transaction commited"] ;; call (connection_commit c))%py w =
  (record_all [Logged DEBUG [Lit "Transaction commited"]; Called (connection_commit c)] w,
   answer (outside w) (connection_commit c)
     (events w ++ [Logged DEBUG [Lit "Transaction commited"]])).
Proof.
  intros c w. unfold bind, ret, log, call, record, record_all. simpl.
  now rewrite <- app_assoc.
Qed.

(** Leaving the scope after the block ended normally. *)
Lemma get_conn_resume : forall c w,
  exists w' out rest,
    database.get_conn_from_yield c (ret tt) w = (w', out) /\
    events w' =
      events w ++ (Logged DEBUG [Lit "Transaction commited"] ::
                   Called (connection_commit c) :: rest) ++ [Called (connection_close c)] /\
    (methods_succeed c (outside w) -> rest = [] /\ out = inr tt).
Proof.
  intros c w. unfold database.get_conn_from_yield.
  pose proof (get_conn_commit_step c w) as Hstep.
  set (committed := record_all [Logged DEBUG [Lit "Transaction commited"];
                                Called (connection_commit c)] w) in *.
  destruct (answer (outside w) (connection_commit c)
              (events w ++ [Logged DEBUG [Lit "Transaction commited"]]))
    as [e|[]] eqn:Hcommit.
  - destruct (is_DatabaseError e) eqn:He.
    + destruct (get_conn_handler c e committed) as (w1 & r & rest & Hh & Ho & Hev & _).
      exists (record (Called (connection_close c)) w1).
      exists (match answer (outside w1) (connection_close c) (events w1) with
              | inl e' => inl e'
              | inr _ => inl r
              end).
      exists (Called (connection_rollback c) :: rest).
      split; [|split].
      * apply try_finally_close.
        rewrite (try_except_caught _ _ _ _ _ _ _ Hstep He). exact Hh.
      * simpl. rewrite Hev. subst committed. simpl.
        rewrite <- !app_assoc. reflexivity.
      * intro Hm. destruct (Hm (events w ++ [Logged DEBUG [Lit "Transaction commited"]]))
          as (Hm1 & _). congruence.
    + exists (record (Called (connection_close c)) committed).
      exists (match answer (outside committed) (connection_close c) (events committed) with
              | inl e' => inl e'
              | inr _ => inl e
              end).
      exists [].
      split; [|split].
      * apply try_finally_close. exact (try_except_passed _ _ _ _ _ _ _ Hstep He).
      * subst committed. simpl. rewrite <- !app_assoc. reflexivity.
      * intro Hm. destruct (Hm (events w ++ [Logged DEBUG [Lit "Transaction commited"]]))
          as (Hm1 & _). congruence.
  - exists (record (Called (connection_close c)) committed).
    exists (match answer (outside committed) (connection_close c) (events committed) with
            | inl e' => inl e'
            | inr _ => inr tt
            end).
    exists [].
    split; [|split].
    + apply try_finally_close. apply (try_except_returned _ _ _ _ _ _ Hstep).
    + subst committed. simpl. rewrite <- !app_assoc. reflexivity.
    + intro Hm. split; [reflexivity|].
      destruct (Hm (events committed)) as (_ & _ & Hm3).
      change (outside committed) with (outside w). now rewrite Hm3.
Qed.
(** Leaving the scope after the block raised a [DatabaseError]. *)
Lemma get_conn_throw_DatabaseError : forall c e w,
  is_DatabaseError e = true ->
  exists w' out rest,
    database.get_conn_from_yield c (raise e) w = (w', out) /\
    events w' =
      events w ++ (Called (connection_rollback c) :: rest) ++ [Called (connection_close c)] /\
    (methods_succeed c (outside w) ->
     rest = [Logged ERROR [Lit "Failed to connect and commit transaction to database: ";
                           Exc e]] /\ out = inl e).
Proof.
  intros c e w He. unfold database.get_conn_from_yield.
  destruct (get_conn_handler c e w) as (w1 & r & rest & Hh & Ho & Hev & Hok).
  exists (record (Called (connection_close c)) w1).
  exists (match answer (outside w1) (connection_close c) (events w1) with
          | inl e' => inl e'
          | inr _ => inl r
          end).
  exists rest.
  split; [|split].
  - apply try_finally_close.
    rewrite (try_except_caught _ _ _ _ _ _ _ (bind_raise_l _ _ e _ w) He). exact Hh.
  - simpl. rewrite Hev. rewrite <- !app_assoc. reflexivity.
  - intro Hm. destruct (Hok Hm) as [-> ->]. split; [reflexivity|].
    destruct (Hm (events w1)) as (_ & _ & Hm3). rewrite Ho, Hm3. reflexivity.
Qed.

(** Leaving the scope after the block raised anything else. *)
Lemma get_conn_throw_other : forall c e w,
  is_DatabaseError e = false ->
  database.get_conn_from_yield c (raise e) w =
  (record (Called (connection_close c)) w,
   match answer (outside w) (connection_close c) (events w) with
   | inl e' => inl e'
   | inr _ => inl e
   end).
Proof.
  intros c e w He. unfold database.get_conn_from_yield.
  apply try_finally_close.
  exact (try_except_passed _ _ _ _ _ _ _ (bind_raise_l _ _ e _ w) He).
Qed.

(** C5.  On an initialised pool that hands out a connection, whatever the
    block does, the last thing the scope does is close the connection.  When
    the block ends normally the scope first logs and commits; when the block
    raises [DatabaseError] the scope first rolls back; on any other
    exception it does nothing else, in particular no rollback.  If the
    connection's own methods do not raise, the block's value comes out in
    the first case and the block's exception in the other two. *)
Theorem get_conn_commits_rolls_back_and_releases :
  forall A (body : Connection -> M A) w pool c w1 r,
    _POOL w = Some pool ->
    answer (outside w) (get_connection pool) (events w) = inr c ->
    body c (record (Called (get_connection pool)) w) = (w1, r) ->
    exists w2 out mid,
      with_ database.get_conn body w = (w2, out) /\
      events w2 = events w1 ++ mid ++ [Called (connection_close c)] /\
      match r with
      | inr a =>
          (exists rest,
              mid = Logged DEBUG [Lit "Transaction commited"] ::
                    Called (connection_commit c) :: rest) /\
          (methods_succeed c (outside w1) ->
           mid = [Logged DEBUG [Lit "Transaction commited"]; Called (connection_commit c)] /\
           out = inr (Some a))
      | inl e =>
          if is_DatabaseError e then
            (exists rest, mid = Called (connection_rollback c) :: rest) /\
            (methods_succeed c (outside w1) ->
             mid = [Called (connection_rollback c);
                    Logged ERROR [Lit "Failed to connect and commit transaction to database: ";
                                  Exc e]] /\
             out = inl e)
          else
            mid = [] /\ (methods_succeed c (outside w1) -> out = inl e)
      end.
Proof.
  intros A body w pool c w1 r HP Hc Hbody.
  unfold with_. rewrite (get_conn_enters w pool c HP Hc).
  cbn [yielded resume throw]. rewrite Hbody.
  destruct r as [e|a].
  - destruct (is_DatabaseError e) eqn:He.
    + destruct (get_conn_throw_DatabaseError c e w1 He) as (w2 & o & rest & Hg & Hev & Hok).
      rewrite Hg.
      exists w2, (match o with inl e' => inl e' | inr _ => inr None end),
        (Called (connection_rollback c) :: rest).
      split; [now destruct o|]. split; [exact Hev|].
      split; [now exists rest|].
      intro Hm. destruct (Hok Hm) as [-> ->]. split; reflexivity.
    + rewrite (get_conn_throw_other c e w1 He).
      exists (record (Called (connection_close c)) w1),
        (match answer (outside w1) (connection_close c) (events w1) with
         | inl e' => inl e'
         | inr _ => inl e
         end), [].
      split; [now destruct (answer (outside w1) (connection_close c) (events w1))|].
      split; [reflexivity|]. split; [reflexivity|].
      intro Hm. destruct (Hm (events w1)) as (_ & _ & Hm3). now rewrite Hm3.
  - destruct (get_conn_resume c w1) as (w2 & o & rest & Hg & Hev & Hok).
    rewrite Hg.
    exists w2, (match o with inl e' => inl e' | inr _ => inr (Some a) end),
      (Logged DEBUG [Lit "Transaction commited"] :: Called (connection_commit c) :: rest).
    split; [now destruct o|]. split; [exact Hev|].
    split; [now exists rest|].
    intro Hm. destruct (Hok Hm) as [-> ->]. split; reflexivity.
Qed.

Lemma get_conn_commits_rolls_back_and_releases_witness :
  let body := fun _ : Connection => (raise (DatabaseError "server has gone away") : M unit) in
  let w1 := record (Called (get_connection Scenario.pool1)) Scenario.w_warm in
  _POOL Scenario.w_warm = Some Scenario.pool1 /\
  answer (outside Scenario.w_warm) (get_connection Scenario.pool1)
    (events Scenario.w_warm) = inr 1%nat /\
  body 1%nat w1 = (w1, inl (DatabaseError "server has gone away")) /\
  methods_succeed 1%nat (outside w1) /\
  exists w2 out mid,
    with_ database.get_conn body Scenario.w_warm = (w2, out) /\
    events w2 = events w1 ++ mid ++ [Called (connection_close 1%nat)] /\
    (exists rest, mid = Called (connection_rollback 1%nat) :: rest) /\
    (methods_succeed 1%nat (outside w1) ->
     mid = [Called (connection_rollback 1%nat);
            Logged ERROR [Lit "Failed to connect and commit transaction to database: ";
                          Exc (DatabaseError "server has gone away")]] /\
     out = inl (DatabaseError "server has gone away")).
Proof.
  intros body w1.
  split; [reflexivity|]. split; [reflexivity|]. split; [reflexivity|].
  split; [intro h; repeat split|].
  exact (get_conn_commits_rolls_back_and_releases unit body Scenario.w_warm
           Scenario.pool1 1%nat w1 (inl (DatabaseError "server has gone away"))
           eq_refl eq_refl eq_refl).
Defined.

(** In a freshly started process, entering the [get_conn] scope does not
    complete: it raises [RuntimeError]. *)
Lemma get_conn_before_init_is_not_silent :
  snd (with_ database.get_conn (fun _ : Connection => (ret tt : M unit)) Scenario.w_cold)
    = inl (RuntimeError "generator didn't yield") /\
  ~ (exists v,
        snd (with_ database.get_conn (fun _ : Connection => (ret tt : M unit)) Scenario.w_cold)
          = inr v).
Proof.
  split; [reflexivity|]. intros [v H]. discriminate H.
Qed.

(** C6.  What the code does where the pool has not been initialised.  The
    early [return] of [get_conn] is written to leave quietly, and no
    database operation is performed, but the scope does not complete
    without raising: a generator that returns before its [yield] makes
    entering the scope raise [RuntimeError], neither the silent exit the
    [return] aims at nor the [DatabaseError] the docstring of [get_conn]
    announces; [return_function_rows] logs its warning and lets that
    exception through. *)
Theorem get_conn_before_init_raises_RuntimeError :
  forall A (body : Connection -> M A) w,
    _POOL w = None ->
    with_ database.get_conn body w = (w, inl (RuntimeError "generator didn't yield")) /\
    forall f date,
      database.return_function_rows f date w =
      (record_all
         [Logged INFO [Lit "Getting database rows for "; Str f; Lit " on "; Str date];
          Logged WARNING [Lit "Failed to find any rows for the "; Str f; Lit " function"]] w,
       inl (RuntimeError "generator didn't yield")).
Proof.
  intros A body w HP. split.
  - unfold with_. rewrite (get_conn_not_initialised w HP). reflexivity.
  - intros f date. unfold database.return_function_rows, try_except, bind, log, with_.
    rewrite (get_conn_not_initialised _ (HP : _POOL (record _ w) = None)).
    simpl. unfold record, record_all. simpl. rewrite <- app_assoc. reflexivity.
Qed.

Lemma get_conn_before_init_raises_RuntimeError_witness :
  _POOL Scenario.w_cold = None /\
  with_ database.get_conn (fun _ : Connection => (ret tt : M unit)) Scenario.w_cold =
    (Scenario.w_cold, inl (RuntimeError "generator didn't yield")) /\
  forall f date,
    database.return_function_rows f date Scenario.w_cold =
    (record_all
       [Logged INFO [Lit "Getting database rows for "; Str f; Lit " on "; Str date];
        Logged WARNING [Lit "Failed to find any rows for the "; Str f; Lit " function"]]
       Scenario.w_cold,
     inl (RuntimeError "generator didn't yield")).
Proof.
  split; [reflexivity|].
  exact (get_conn_before_init_raises_RuntimeError unit (fun _ => ret tt)
           Scenario.w_cold eq_refl).
Defined.

(** ** The pool *)

Lemma init_pool_initialised : forall cfg w pool,
  _POOL w = Some pool -> database.init_pool cfg w = (w, inr tt).
Proof. intros cfg w pool HP. unfold database.init_pool. now rewrite HP. Qed.

(** A call of [init_pool] that returns leaves a pool behind. *)
Lemma init_pool_returns_with_pool : forall cfg w w',
  database.init_pool cfg w = (w', inr tt) -> exists pool, _POOL w' = Some pool.
Proof.
  intros cfg w w'. unfold database.init_pool.
  destruct (_POOL w) as [pool|] eqn:HP.
  - intro H. injection H as <-. now exists pool.
  - unfold bind, database.DB_POOL_SIZE.
    destruct (environ (outside w) "DB_POOL_SIZE") as [s|].
    + destruct (PyStr.int s) as [z|]; [|discriminate].
      destruct (dict_get _ "pool_name"); [discriminate|].
      destruct (dict_get _ "pool_size"); [discriminate|].
      unfold call, log. destruct (answer (outside w) _ (events w)); [discriminate|].
      intro H. injection H as <-. eexists. reflexivity.
    + destruct (dict_get _ "pool_name"); [discriminate|].
      destruct (dict_get _ "pool_size"); [discriminate|].
      unfold call, log. destruct (answer (outside w) _ (events w)); [discriminate|].
      intro H. injection H as <-. eexists. reflexivity.
Qed.

(** C8.  Once the pool exists, [init_pool] returns at once and leaves the
    world as it is, whatever configuration it is given; so a second call
    after a first adds nothing to what the first did. *)
Theorem init_pool_idempotent :
  (forall cfg w pool,
      _POOL w = Some pool -> database.init_pool cfg w = (w, inr tt)) /\
  (forall cfg1 cfg2 w,
      (database.init_pool cfg1 ;; database.init_pool cfg2)%py w =
      database.init_pool cfg1 w).
Proof.
  split; [exact init_pool_initialised|].
  intros cfg1 cfg2 w. unfold bind at 1.
  destruct (database.init_pool cfg1 w) as [w' [e|[]]] eqn:H1; [reflexivity|].
  destruct (init_pool_returns_with_pool _ _ _ H1) as [pool HP].
  exact (init_pool_initialised cfg2 w' pool HP).
Qed.

Lemma init_pool_idempotent_witness :
  _POOL Scenario.w_warm = Some Scenario.pool1 /\
  database.init_pool [("host", "elsewhere")] Scenario.w_warm = (Scenario.w_warm, inr tt).
Proof.
  split; [reflexivity|].
  exact (proj1 init_pool_idempotent [("host", "elsewhere")] Scenario.w_warm
           Scenario.pool1 eq_refl).
Defined.

(** ** The orchestrator *)

(** The loop stops at the first pass that raises. *)
Lemma for_each_stops : forall A (body : A -> M unit) done x rest w w1 w2 e,
  for_each done body w = (w1, inr tt) ->
  body x w1 = (w2, inl e) ->
  for_each (done ++ x :: rest) body w = (w2, inl e).
Proof.
  intros A body done. induction done as [|d done IH]; intros x rest w w1 w2 e Hd Hx.
  - injection Hd as <-. simpl. unfold bind. now rewrite Hx.
  - simpl in *. unfold bind in *.
    destruct (body d w) as [wd [ed|[]]]; [discriminate|].
    exact (IH x rest wd w1 w2 e Hd Hx).
Qed.

(** C7.  The handler runs its start-up, then checks ENWL_power_scraper, then
    live_station_scraper.  The first of these steps that raises ends the
    handler with that exception (logged when it is an [Exception]); the
    steps after it are not run.  When none raises the handler returns the
    fixed payload.  Checking a function is: fetch the prior-day rows,
    classify them, run the threshold check on the entries; an exception of
    the fetch or of the threshold check is the outcome of the check. *)
Theorem handler_stops_at_first_failure : forall Ev (event : Ev) context w,
  let failed (e : exn) (w' : World) : World * (exn + dict main.payload_value) :=
    (if is_Exception e
     then record (Logged ERROR [Lit "Error occured at main function call: "; Exc e]) w'
     else w',
     inl e) in
  config.FUNCTIONS_TO_CHECK = ["ENWL_power_scraper"; "live_station_scraper"] /\
  main.handler event context w =
    match main.startup context w with
    | (w0, inl e) => failed e w0
    | (w0, inr _) =>
        match main.check_function "ENWL_power_scraper" w0 with
        | (w1, inl e) => failed e w1
        | (w1, inr _) =>
            match main.check_function "live_station_scraper" w1 with
            | (w2, inl e) => failed e w2
            | (w2, inr _) =>
                (w2, inr [("status code", main.PInt 200);
                          ("body", main.PStr "Health check completed successfully")])
            end
        end
    end /\
  forall f w0,
    main.check_function f w0 =
    match utils.prior_day_calls f w0 with
    | (w1, inl e) => (w1, inl e)
    | (w1, inr (Some rows)) =>
        utils.threshold_checker (Spec.classify rows) rows f
          (record (Logged INFO [Lit "Parsing database query results for function "; Str f]) w1)
    | (w1, inr None) =>
        (record (Logged INFO [Lit "Parsing database query results for function "; Str f]) w1,
         inl (TypeError "'NoneType' object is not iterable"))
    end.
Proof.
  intros Ev event context w failed. split; [reflexivity|]. split.
  - unfold main.handler, try_except, bind. simpl for_each. unfold bind.
    destruct (main.startup context w) as [w0 [e|[]]].
    { simpl select_clause. unfold failed. now destruct (is_Exception e). }
    destruct (main.check_function "ENWL_power_scraper" w0) as [w1 [e|[]]].
    { simpl select_clause. unfold failed. now destruct (is_Exception e). }
    destruct (main.check_function "live_station_scraper" w1) as [w2 [e|[]]].
    { simpl select_clause. unfold failed. now destruct (is_Exception e). }
    reflexivity.
  - intros f w0. unfold main.check_function, bind.
    destruct (utils.prior_day_calls f w0) as [w1 [e|[rows|]]]; try reflexivity.
    unfold utils.query_parser, bind, log, ret.
    now rewrite fold_query_parser_step.
Qed.

(** ** The expected schedule *)

(** The loop of [generate_exp_times] appends one time every three minutes
    until the limit is reached. *)
Lemma exp_times_loop_steps : forall n limit acc start,
  limit <= start + Z.of_nat n * timedelta 0 3 ->
  (forall k, (k < n)%nat -> start + Z.of_nat k * timedelta 0 3 < limit) ->
  utils.exp_times_loop limit acc start =
  acc ++ map (fun k => start + Z.of_nat k * timedelta 0 3) (seq 0 n).
Proof.
  induction n as [|n IH]; intros limit acc start Hend Hin;
    rewrite utils.exp_times_loop_equation.
  - destruct (Z.ltb_spec start limit) as [Hlt|Hge]; [lia|].
    simpl. now rewrite app_nil_r.
  - pose proof (Hin 0%nat ltac:(lia)) as H0.
    destruct (Z.ltb_spec start limit) as [Hlt|Hge]; [|lia].
    rewrite IH.
    + rewrite <- app_assoc. cbn [app seq map]. f_equal. f_equal; [lia|].
      rewrite <- seq_shift, map_map. apply map_ext. intro k. lia.
    + lia.
    + intros k Hk. pose proof (Hin (S k) ltac:(lia)). lia.
Qed.

Lemma exp_times_one_day : forall earliest,
  utils.exp_times_loop (earliest + timedelta 1 0) [] earliest =
  map (fun k => earliest + Z.of_nat k * timedelta 0 3) (seq 0 480).
Proof.
  intro earliest. rewrite (exp_times_loop_steps 480); [reflexivity| |];
    unfold timedelta; [lia|]. intros k Hk. lia.
Qed.

(** For a rate expression in minutes the expected times are three minutes
    apart, whatever the rate value [value] is. *)
Lemma generate_exp_times_in_minutes :
  forall f w w1 w2 earliest response expression part1 value,
    utils.relative_start_time f w = (w1, inr earliest) ->
    utils.get_event_bridge_schedule w1 = (w2, inr response) ->
    dict_get response "ScheduleExpression" = Some expression ->
    PyStr.contains "rate" expression = true ->
    nth_error (PyStr.split_on "(" expression) 1 = Some part1 ->
    PyStr.split_ws (PyStr.rstrip ")" part1) = [value; "minutes"] ->
    utils.generate_exp_times f w =
    (record (Logged INFO [Lit "Expected schedule created"]) w2,
     inr (map (fun k => earliest + Z.of_nat k * timedelta 0 3) (seq 0 480))).
Proof.
  intros f w w1 w2 earliest response expression part1 value H1 H2 H3 H4 H5 H6.
  unfold utils.generate_exp_times.
  rewrite (bind_ok _ _ _ _ _ _ _ H1), (bind_ok _ _ _ _ _ _ _ H2).
  unfold utils.get_schedule_expression, subscript. rewrite H3.
  cbv beta iota delta [bind ret]. rewrite H4, H5, H6.
  change (String.eqb "minutes" "minutes") with true.
  cbv beta iota delta [negb log]. now rewrite exp_times_one_day.
Qed.

(** Without "rate" in the expression the function raises
    [NotImplementedError], once the first call time and the schedule have
    been fetched. *)
Lemma generate_exp_times_not_rate :
  forall f w w1 w2 earliest response expression,
    utils.relative_start_time f w = (w1, inr earliest) ->
    utils.get_event_bridge_schedule w1 = (w2, inr response) ->
    dict_get response "ScheduleExpression" = Some expression ->
    PyStr.contains "rate" expression = false ->
    utils.generate_exp_times f w =
    (record (Logged WARNING
               [Lit "Cron expression used for function schedule - this functionality is not added yet"])
            w2,
     inl NotImplementedError).
Proof.
  intros f w w1 w2 earliest response expression H1 H2 H3 H4.
  unfold utils.generate_exp_times.
  rewrite (bind_ok _ _ _ _ _ _ _ H1), (bind_ok _ _ _ _ _ _ _ H2).
  unfold utils.get_schedule_expression, subscript. rewrite H3.
  cbv beta iota delta [bind ret]. rewrite H4. reflexivity.
Qed.

(** With a unit other than "minutes" it raises [NotImplementedError] too. *)
Lemma generate_exp_times_other_unit :
  forall f w w1 w2 earliest response expression part1 value unit_,
    utils.relative_start_time f w = (w1, inr earliest) ->
    utils.get_event_bridge_schedule w1 = (w2, inr response) ->
    dict_get response "ScheduleExpression" = Some expression ->
    PyStr.contains "rate" expression = true ->
    nth_error (PyStr.split_on "(" expression) 1 = Some part1 ->
    PyStr.split_ws (PyStr.rstrip ")" part1) = [value; unit_] ->
    unit_ <> "minutes" ->
    utils.generate_exp_times f w =
    (record (Logged WARNING
               [Lit "Rate in different granularity to minutes used - functionality not added"])
            w2,
     inl NotImplementedError).
Proof.
  intros f w w1 w2 earliest response expression part1 value unit_ H1 H2 H3 H4 H5 H6 H7.
  unfold utils.generate_exp_times.
  rewrite (bind_ok _ _ _ _ _ _ _ H1), (bind_ok _ _ _ _ _ _ _ H2).
  unfold utils.get_schedule_expression, subscript. rewrite H3.
  cbv beta iota delta [bind ret]. rewrite H4, H5, H6.
  rewrite (proj2 (String.eqb_neq _ _) H7). reflexivity.
Qed.

(** C9, at the schedule "rate(5 minutes)".  With one prior-day call of
    ENWL_power_scraper at 2025-10-26T00:01:00Z, [generate_exp_times] returns
    480 times that start at that call; the second one is three minutes
    after the first, not five. *)
Theorem generate_exp_times_spacing_is_three_minutes :
  exists w' times,
    utils.generate_exp_times "ENWL_power_scraper" Scenario.w_warm = (w', inr times) /\
    List.length times = 480%nat /\
    nth_error times 0 = Some Scenario.t_first /\
    nth_error times 1 = Some (Scenario.t_first + timedelta 0 3) /\
    nth_error times 1 <> Some (Scenario.t_first + timedelta 0 5).
Proof.
  do 2 eexists. split.
  - eapply (generate_exp_times_in_minutes "ENWL_power_scraper" Scenario.w_warm
              _ _ Scenario.t_first _ "rate(5 minutes)" "5 minutes)" "5").
    + vm_compute. reflexivity.
    + vm_compute. reflexivity.
    + reflexivity.
    + reflexivity.
    + reflexivity.
    + reflexivity.
  - split; [now rewrite length_map, length_seq|].
    split; [reflexivity|]. split; [reflexivity|]. discriminate.
Qed.

(** ** What a computation leaves alone *)

Section Preservation.

Context {X : Type} (obs : World -> X).

Lemma preserves_ret : forall A (a : A), preserves obs (ret a).
Proof. intros A a w. reflexivity. Qed.

Lemma preserves_raise : forall A e, preserves obs (raise e : M A).
Proof. intros A e w. reflexivity. Qed.

Lemma preserves_bind : forall A B (m : M A) (k : A -> M B),
  preserves obs m -> (forall a, preserves obs (k a)) -> preserves obs (bind m k).
Proof.
  intros A B m k Hm Hk w. unfold bind. specialize (Hm w).
  destruct (m w) as [w1 [e|a]]; simpl in *; [exact Hm|].
  now rewrite Hk.
Qed.

Lemma preserves_log : forall level msg,
  ignores obs (Logged level msg) -> preserves obs (log level msg).
Proof. intros level msg H w. apply H. Qed.

Lemma preserves_now : ignores obs Now -> preserves obs datetime_now_utc.
Proof. intros H w. apply H. Qed.

Lemma preserves_call : forall c, ignores obs (Called c) -> preserves obs (call c).
Proof. intros c H w. apply H. Qed.

Lemma preserves_subscript : forall V (d : dict V) k, preserves obs (subscript d k).
Proof. intros V d k w. unfold subscript. now destruct (dict_get d k). Qed.

Lemma preserves_try_except : forall A (body : M A) clauses,
  preserves obs body ->
  Forall (fun clause => forall e, preserves obs (snd clause e)) clauses ->
  preserves obs (try_except body clauses).
Proof.
  intros A body clauses Hb Hc w. unfold try_except. specialize (Hb w).
  destruct (body w) as [w1 [e|a]]; simpl in *; [|exact Hb].
  induction Hc as [|[catches handler] clauses Hh _ IH]; simpl; [exact Hb|].
  destruct (catches e); [|exact IH]. pose proof (Hh e w1) as H1. simpl in H1. congruence.
Qed.

Lemma preserves_try_finally : forall A (body : M A) final,
  preserves obs body -> preserves obs final -> preserves obs (try_finally body final).
Proof.
  intros A body final Hb Hf w. unfold try_finally. specialize (Hb w).
  destruct (body w) as [w1 r]. specialize (Hf w1).
  destruct (final w1) as [w2 [e|u]]; simpl in *; congruence.
Qed.

Lemma preserves_with : forall Y A (cm : Generator Y) (body : Y -> M A),
  preserves_cm obs cm -> (forall y, preserves obs (body y)) ->
  preserves obs (with_ cm body).
Proof.
  intros Y A cm body [Hcm Hs] Hb w. unfold with_. specialize (Hcm w).
  destruct (cm w) as [w1 [e|[s|]]] eqn:E; simpl in *; try exact Hcm.
  destruct (Hs w w1 s E) as [Hr Ht].
  specialize (Hb (yielded s) w1).
  destruct (body (yielded s) w1) as [w2 [e|a]]; simpl in Hb.
  - specialize (Ht e w2). destruct (throw s e w2) as [w3 [e'|u]]; simpl in *; congruence.
  - specialize (Hr w2). destruct (resume s w2) as [w3 [e'|u]]; simpl in *; congruence.
Qed.

Lemma preserves_for_each : forall A (xs : list A) body,
  (forall x, preserves obs (body x)) -> preserves obs (for_each xs body).
Proof.
  intros A xs body Hb. induction xs as [|x xs IH]; simpl.
  - apply preserves_ret.
  - apply preserves_bind; [apply Hb | intros _; exact IH].
Qed.

End Preservation.

Ltac preserving :=
  repeat first
    [ apply preserves_ret | apply preserves_raise | apply preserves_subscript
    | apply preserves_log | apply preserves_now | apply preserves_call
    | apply preserves_bind | apply preserves_try_except | apply preserves_try_finally
    | apply preserves_with | apply preserves_for_each
    | apply Forall_cons | apply Forall_nil
    | match goal with |- forall _, _ => intro end ].

Section Unpublished.

Context {X : Type} (obs : World -> X).
Hypothesis obs_ignores : forall e, not_a_publish e -> ignores obs e.

Lemma get_conn_preserves : preserves_cm obs database.get_conn.
Proof.
  split.
  - intro w. unfold database.get_conn. destruct (_POOL w); [|reflexivity].
    revert w. fold (preserves obs (A := option (Suspended Connection))).
    preserving. now apply obs_ignores.
  - intros w w1 s. unfold database.get_conn. destruct (_POOL w); [|discriminate].
    unfold bind, call, ret. destruct (answer (outside w) _ _); [discriminate|].
    intro H. injection H as _ <-. cbn [resume throw].
    unfold database.get_conn_from_yield.
    split; [|intro e]; preserving; now apply obs_ignores.
Qed.

Lemma get_cursor_preserves : forall connection,
  preserves_cm obs (database.get_cursor connection).
Proof.
  intro connection. split.
  - unfold database.get_cursor. preserving; now apply obs_ignores.
  - intros w w1 s. unfold database.get_cursor, bind, call, log, ret.
    destruct (answer (outside w) _ _); [discriminate|].
    intro H. injection H as _ <-. cbn [resume throw].
    unfold database.get_cursor_from_yield.
    split; [|intro e]; preserving; now apply obs_ignores.
Qed.

Lemma return_function_rows_preserves : forall f date,
  preserves obs (database.return_function_rows f date).
Proof.
  intros f date. unfold database.return_function_rows.
  apply preserves_try_except.
  - apply preserves_bind; [apply preserves_log; now apply obs_ignores|]. intros _.
    apply preserves_bind.
    + apply preserves_with; [apply get_conn_preserves|]. intro connection.
      apply preserves_with; [apply get_cursor_preserves|]. intro cursor.
      preserving; now apply obs_ignores.
    + intros [[rows|]|]; apply preserves_ret.
  - preserving. now apply obs_ignores.
Qed.

Lemma prior_day_calls_preserves : forall f, preserves obs (utils.prior_day_calls f).
Proof.
  intro f. unfold utils.prior_day_calls.
  apply preserves_bind; [apply preserves_now; now apply obs_ignores|]. intro now.
  apply preserves_bind; [apply return_function_rows_preserves|]. intro result.
  apply preserves_ret.
Qed.

Lemma query_parser_preserves : forall rows f, preserves obs (utils.query_parser rows f).
Proof.
  intros rows f. unfold utils.query_parser. preserving. now apply obs_ignores.
Qed.

Lemma relative_start_time_preserves : forall f,
  preserves obs (utils.relative_start_time f).
Proof.
  intro f. unfold utils.relative_start_time.
  apply preserves_bind; [apply prior_day_calls_preserves|].
  intros [[|row rows]|]; preserving.
Qed.

Lemma generate_exp_times_preserves : forall f,
  preserves obs (utils.generate_exp_times f).
Proof.
  intro f. unfold utils.generate_exp_times, utils.get_event_bridge_schedule,
    utils.get_schedule_expression.
  apply preserves_bind; [apply relative_start_time_preserves|]. intro earliest.
  apply preserves_bind; [apply preserves_call; now apply obs_ignores|]. intro response.
  apply preserves_bind; [preserving|]. intro expression.
  destruct (negb (PyStr.contains "rate" expression)).
  { preserving. now apply obs_ignores. }
  destruct (nth_error _ 1) as [part1|]; [|apply preserves_raise].
  destruct (PyStr.split_ws _) as [|value [|unit_ [|]]]; try apply preserves_raise.
  destruct (negb (String.eqb unit_ "minutes")); preserving; now apply obs_ignores.
Qed.

Lemma enumerate_run_times_preserves : forall f,
  preserves obs (utils.enumerate_run_times f).
Proof.
  intro f. unfold utils.enumerate_run_times.
  apply preserves_bind; [apply prior_day_calls_preserves|].
  intros [rows|]; preserving.
Qed.

Lemma compare_loop_preserves : forall enumerated expected indices dif_times,
  preserves obs (utils.compare_loop enumerated expected indices dif_times).
Proof.
  intros enumerated expected indices.
  induction indices as [|i indices IH]; intro dif_times; simpl.
  - apply preserves_ret.
  - destruct (index_dict_get enumerated i) as [actual|]; [|apply preserves_raise].
    destruct (nth_error expected i) as [e|]; [|apply preserves_raise].
    destruct (negb (actual =? e)); apply IH.
Qed.

Lemma compare_run_times_preserves : forall f,
  preserves obs (utils.compare_run_times f).
Proof.
  intro f. unfold utils.compare_run_times.
  apply preserves_bind; [apply enumerate_run_times_preserves|]. intro enumerated.
  apply preserves_bind; [apply generate_exp_times_preserves|]. intro expected.
  apply preserves_bind; [apply preserves_log; now apply obs_ignores|]. intros _.
  apply compare_loop_preserves.
Qed.

End Unpublished.

Lemma pool_ignores : forall e, ignores _POOL e.
Proof. intros e w. reflexivity. Qed.

Lemma published_ignores : forall e,
  not_a_publish e -> ignores (fun w => published (events w)) e.
Proof.
  intros e He w. simpl. rewrite published_app.
  destruct e as [level msg| |c]; simpl; try apply app_nil_r.
  destruct c; simpl; try apply app_nil_r. destruct He.
Qed.

(** X1.  Only [threshold_checker] publishes: fetching the prior-day rows,
    classifying them, and the schedule helpers never publish a
    notification, whatever the database, the scheduler and the clock
    answer. *)
Theorem only_threshold_checker_publishes : forall f rows w,
  published (events (fst (utils.prior_day_calls f w))) = published (events w) /\
  published (events (fst (utils.query_parser rows f w))) = published (events w) /\
  published (events (fst (utils.relative_start_time f w))) = published (events w) /\
  published (events (fst (utils.generate_exp_times f w))) = published (events w) /\
  published (events (fst (utils.enumerate_run_times f w))) = published (events w) /\
  published (events (fst (utils.compare_run_times f w))) = published (events w).
Proof.
  intros f rows w.
  pose (obs := fun w => published (events w)).
  repeat split.
  - exact (prior_day_calls_preserves obs published_ignores f w).
  - exact (query_parser_preserves obs published_ignores rows f w).
  - exact (relative_start_time_preserves obs published_ignores f w).
  - exact (generate_exp_times_preserves obs published_ignores f w).
  - exact (enumerate_run_times_preserves obs published_ignores f w).
  - exact (compare_run_times_preserves obs published_ignores f w).
Qed.

(** [threshold_checker] publishes nothing or one notification about its
    function. *)
Lemma threshold_checker_publishes_at_most_once : forall errs rows f w,
  exists new,
    published (events (fst (utils.threshold_checker errs rows f w))) =
      published (events w) ++ new /\
    at_most_one_about f new.
Proof.
  intros errs rows f w. destruct rows as [|row rows].
  - exists []. rewrite app_nil_r. split; [reflexivity|now left].
  - pose proof (len_div_len_nonempty _ _ errs (row :: rows) w ltac:(discriminate)) as Hq.
    destruct (Qle_bool config.ACCEPTABLE_ERROR_THRESHOLD
                (inject_Z (Z.of_nat (List.length errs)) /
                 inject_Z (Z.of_nat (List.length (row :: rows))))) eqn:Hcmp.
    + pose proof (threshold_checker_reached errs (row :: rows) f w _ Hq Hcmp) as H.
      cbv zeta in H. rewrite H. clear H. cbn [fst record_all events].
      rewrite published_app. eexists. split; [reflexivity|].
      right. eexists. split; [reflexivity|]. eexists. eexists. reflexivity.
    + rewrite (threshold_checker_below errs (row :: rows) f w _ Hq Hcmp).
      cbn [fst record_all events]. rewrite published_app.
      exists []. split; [reflexivity|now left].
Qed.

Lemma check_function_publishes_at_most_once : forall f w,
  exists new,
    published (events (fst (main.check_function f w))) = published (events w) ++ new /\
    at_most_one_about f new.
Proof.
  intros f w. unfold main.check_function, bind.
  pose proof (prior_day_calls_preserves _ published_ignores f w) as H0.
  destruct (utils.prior_day_calls f w) as [w1 [e|[rows|]]]; simpl in H0.
  - exists []. rewrite app_nil_r. split; [exact H0|now left].
  - pose proof (query_parser_preserves _ published_ignores rows f w1) as H1.
    destruct (utils.query_parser rows f w1) as [w2 [e|errs]]; simpl in H1.
    + exists []. rewrite app_nil_r. split; [simpl; congruence|now left].
    + destruct (threshold_checker_publishes_at_most_once errs rows f w2)
        as (new & Hn & Hf).
      exists new. split; [simpl in *; congruence|exact Hf].
  - exists []. rewrite app_nil_r. unfold log, raise. simpl.
    rewrite published_app. simpl. rewrite app_nil_r.
    split; [exact H0|now left].
Qed.

Section Startup.

Context {X : Type} (obs : World -> X).
Hypothesis obs_ignores : forall e, not_a_publish e -> ignores obs e.
Hypothesis obs_cache : forall c w, obs (set_secret_payload_cache c w) = obs w.

Lemma get_secret_payload_preserves : forall name,
  preserves obs (secrets._get_secret_payload name).
Proof.
  intros name w. unfold secrets._get_secret_payload.
  assert (preserves obs (secrets._get_secret_payload_body name)) as Hbody.
  { unfold secrets._get_secret_payload_body. preserving; now apply obs_ignores. }
  specialize (Hbody w).
  assert (obs (fst match secrets._get_secret_payload_body name w with
                   | (w', inr payload) =>
                       (set_secret_payload_cache (Some (name, payload)) w', inr payload)
                   | (w', inl e) => (w', inl e)
                   end) = obs w) as Hmiss.
  { destruct (secrets._get_secret_payload_body name w) as [w' [e|payload]];
      simpl in *; [exact Hbody|]. now rewrite obs_cache. }
  destruct (secret_payload_cache w) as [[cached payload]|]; [|exact Hmiss].
  destruct (String.eqb cached name); [reflexivity|exact Hmiss].
Qed.

Lemma get_db_config_preserves : preserves obs secrets.get_db_config.
Proof.
  unfold secrets.get_db_config.
  apply preserves_bind; [apply get_secret_payload_preserves|]. intro payload.
  preserving.
Qed.

End Startup.

Lemma init_pool_publishes_nothing : forall cfg,
  preserves (fun w => published (events w)) (database.init_pool cfg).
Proof.
  intros cfg w. unfold database.init_pool. destruct (_POOL w); [reflexivity|].
  unfold bind, database.DB_POOL_SIZE.
  destruct (environ (outside w) "DB_POOL_SIZE") as [s|];
    [destruct (PyStr.int s); [|reflexivity]|];
    (destruct (dict_get _ "pool_name"); [reflexivity|];
     destruct (dict_get _ "pool_size"); [reflexivity|];
     unfold call, log; destruct (answer (outside w) _ (events w)); simpl;
     rewrite ?published_app; simpl; now rewrite ?app_nil_r).
Qed.

Lemma startup_publishes_nothing : forall context,
  preserves (fun w => published (events w)) (main.startup context).
Proof.
  intro context. unfold main.startup.
  apply preserves_bind.
  { destruct (main.aws_request_id context); preserving. }
  intros _. apply preserves_bind; [apply preserves_log; now apply published_ignores|].
  intros _. apply preserves_bind.
  { apply get_db_config_preserves; [exact published_ignores | reflexivity]. }
  intro cfg. apply init_pool_publishes_nothing.
Qed.

(** The functions a failed pass leaves unchecked publish nothing. *)
Lemma unchecked_functions_publish_nothing : forall fs : list string,
  Forall2 at_most_one_about fs (map (fun _ => []) fs) /\
  List.concat (map (fun _ : string => @nil (string * fstring * fstring)) fs) = [].
Proof.
  induction fs as [|f fs [IH1 IH2]]; simpl; split.
  - constructor.
  - reflexivity.
  - constructor; [now left|exact IH1].
  - exact IH2.
Qed.

Lemma for_each_check_function_publishes : forall fs w,
  exists per_function,
    published (events (fst (for_each fs main.check_function w))) =
      published (events w) ++ List.concat per_function /\
    Forall2 at_most_one_about fs per_function.
Proof.
  induction fs as [|f fs IH]; intro w; simpl.
  - exists []. simpl. rewrite app_nil_r. split; [reflexivity|constructor].
  - unfold bind.
    destruct (check_function_publishes_at_most_once f w) as (n1 & H1 & F1).
    destruct (main.check_function f w) as [w1 [e|[]]]; simpl in H1.
    + destruct (unchecked_functions_publish_nothing fs) as [Hrest Hnone].
      exists (n1 :: map (fun _ => []) fs). split.
      * simpl. rewrite Hnone, app_nil_r. exact H1.
      * constructor; [exact F1|exact Hrest].
    + destruct (IH w1) as (per & H2 & F2).
      exists (n1 :: per). split.
      * simpl. rewrite H2, H1. now rewrite app_assoc.
      * constructor; [exact F1|exact F2].
Qed.

(** X2.  One run of the handler publishes, for each configured function in
    the order of the configuration, either nothing or exactly one
    notification, and that one is the notification about that function, sent
    to the alerts topic; nothing else is published, whether the handler
    returns or raises. *)
Theorem handler_notifies_at_most_once_per_function :
  forall Ev (event : Ev) context w,
  exists per_function,
    published (events (fst (main.handler event context w))) =
      published (events w) ++ List.concat per_function /\
    Forall2 at_most_one_about config.FUNCTIONS_TO_CHECK per_function.
Proof.
  intros Ev event context w.
  unfold main.handler, try_except, bind.
  pose proof (startup_publishes_nothing context w) as H0.
  destruct (main.startup context w) as [w0 [e|[]]]; simpl in H0.
  - destruct (unchecked_functions_publish_nothing config.FUNCTIONS_TO_CHECK)
      as [Hrest Hnone].
    exists (map (fun _ => []) config.FUNCTIONS_TO_CHECK).
    split; [|exact Hrest]. rewrite Hnone, app_nil_r. simpl select_clause.
    rewrite <- H0. destruct (is_Exception e); [|reflexivity].
    unfold log, raise. simpl. rewrite published_app. simpl. apply app_nil_r.
  - destruct (for_each_check_function_publishes config.FUNCTIONS_TO_CHECK w0)
      as (per & H1 & F1).
    exists per. split; [|exact F1].
    rewrite <- H0, <- H1.
    destruct (for_each config.FUNCTIONS_TO_CHECK main.check_function w0) as [w1 [e|[]]].
    + simpl select_clause. destruct (is_Exception e); [|reflexivity].
      unfold log, raise. simpl. rewrite published_app. simpl. apply app_nil_r.
    + reflexivity.
Qed.

Lemma threshold_checker_keeps_pool : forall errs rows f,
  preserves _POOL (utils.threshold_checker errs rows f).
Proof.
  intros errs rows f. unfold utils.threshold_checker.
  apply preserves_bind.
  { unfold utils.len_div_len. destruct (Nat.eqb _ 0); preserving. }
  intro q. unfold utils.get_current_UTC_date, notification.publish_to_topic.
  destruct (Qle_bool _ q); preserving; apply pool_ignores.
Qed.

Lemma check_function_keeps_pool : forall f, preserves _POOL (main.check_function f).
Proof.
  intro f. unfold main.check_function.
  apply preserves_bind.
  { apply prior_day_calls_preserves. intros e _. apply pool_ignores. }
  intros [rows|].
  - apply preserves_bind.
    { apply query_parser_preserves. intros e _. apply pool_ignores. }
    intro errs. apply threshold_checker_keeps_pool.
  - preserving. apply pool_ignores.
Qed.

(** X3.  The handler never replaces or drops a pool: a pool that exists
    when the handler starts is the pool when it ends, and whenever the
    handler returns its payload a pool exists. *)
Theorem handler_keeps_the_pool : forall Ev (event : Ev) context w,
  (forall pool, _POOL w = Some pool ->
                _POOL (fst (main.handler event context w)) = Some pool) /\
  (forall payload, snd (main.handler event context w) = inr payload ->
                   exists pool, _POOL (fst (main.handler event context w)) = Some pool).
Proof.
  intros Ev event context w.
  assert (forall e w', _POOL (fst
            match (if is_Exception e
                   then Some (fun e => log ERROR [Lit "Error occured at main function call: ";
                                                  Exc e] ;; raise e)%py
                   else None) with
            | Some handler => handler e w'
            | None => (w', (inl e : exn + dict main.payload_value))
            end) = _POOL w') as Hclause.
  { intros e w'. now destruct (is_Exception e). }
  pose proof (preserves_for_each _POOL _ config.FUNCTIONS_TO_CHECK main.check_function
                check_function_keeps_pool) as Hloop.
  unfold main.handler, try_except, bind.
  unfold main.startup at 1 2 3. unfold bind.
  destruct (main.aws_request_id context) as [request_id|]; unfold ret, raise, log.
  2:{ simpl. split; [intros pool HP; exact HP|discriminate]. }
  pose proof (get_db_config_preserves _POOL (fun e _ => pool_ignores e)
                (fun c w => eq_refl)
                (record (Logged INFO [Lit "Starting health check"]) w)) as Hcfg.
  destruct (secrets.get_db_config _) as [w1 [e|cfg]]; simpl in Hcfg.
  { simpl select_clause. rewrite Hclause. simpl.
    split; [intros pool HP; congruence|].
    destruct (is_Exception e); discriminate. }
  destruct (database.init_pool cfg w1) as [w2 [e|[]]] eqn:Hinit.
  - simpl select_clause. rewrite Hclause. simpl. split.
    + intros pool HP. rewrite (init_pool_initialised cfg w1 pool) in Hinit by congruence.
      discriminate.
    + destruct (is_Exception e); discriminate.
  - specialize (Hloop w2).
    destruct (for_each config.FUNCTIONS_TO_CHECK main.check_function w2) as [w3 [e|[]]];
      simpl in Hloop.
    + simpl select_clause. rewrite Hclause. simpl. split.
      * intros pool HP. rewrite (init_pool_initialised cfg w1 pool) in Hinit by congruence.
        injection Hinit as <-. congruence.
      * destruct (is_Exception e); discriminate.
    + simpl. split.
      * intros pool HP. rewrite (init_pool_initialised cfg w1 pool) in Hinit by congruence.
        injection Hinit as <-. congruence.
      * intros _ _. destruct (init_pool_returns_with_pool _ _ _ Hinit) as [pool HP].
        exists pool. congruence.
Qed.

Lemma handler_keeps_the_pool_witness :
  _POOL Scenario.w_warm = Some Scenario.pool1 /\
  _POOL (fst (main.handler tt Scenario.context1 Scenario.w_warm)) = Some Scenario.pool1 /\
  snd (main.handler tt Scenario.context1 Scenario.w_cold) = inr main.success_payload /\
  exists pool, _POOL (fst (main.handler tt Scenario.context1 Scenario.w_cold)) = Some pool.
Proof.
  assert (snd (main.handler tt Scenario.context1 Scenario.w_cold) = inr main.success_payload)
    as Hret by (vm_compute; reflexivity).
  split; [reflexivity|].
  split; [exact (proj1 (handler_keeps_the_pool unit tt Scenario.context1 Scenario.w_warm)
                   Scenario.pool1 eq_refl)|].
  split; [exact Hret|].
  exact (proj2 (handler_keeps_the_pool unit tt Scenario.context1 Scenario.w_cold)
           main.success_payload Hret).
Defined.

(** ** Acquiring and releasing *)

Lemma call_returns : forall c w v,
  answer (outside w) c (events w) = inr v -> call c w = (record (Called c) w, inr v).
Proof. intros c w v H. unfold call. now rewrite H. Qed.

Lemma call_raises : forall c w e,
  answer (outside w) c (events w) = inl e -> call c w = (record (Called c) w, inl e).
Proof. intros c w e H. unfold call. now rewrite H. Qed.

Lemma with_raised_entering : forall Y A (cm : Generator Y) (body : Y -> M A) w w1 e,
  cm w = (w1, inl e) -> with_ cm body w = (w1, inl e).
Proof. intros Y A cm body w w1 e H. unfold with_. now rewrite H. Qed.

Lemma with_returned : forall Y A (cm : Generator Y) (body : Y -> M A) w w1 s w2 a w3,
  cm w = (w1, inr (Some s)) ->
  body (yielded s) w1 = (w2, inr a) ->
  resume s w2 = (w3, inr tt) ->
  with_ cm body w = (w3, inr (Some a)).
Proof.
  intros Y A cm body w w1 s w2 a w3 H1 H2 H3. unfold with_. now rewrite H1, H2, H3.
Qed.

Lemma with_raised : forall Y A (cm : Generator Y) (body : Y -> M A) w w1 s w2 e w3 e',
  cm w = (w1, inr (Some s)) ->
  body (yielded s) w1 = (w2, inl e) ->
  throw s e w2 = (w3, inl e') ->
  with_ cm body w = (w3, inl e').
Proof.
  intros Y A cm body w w1 s w2 e w3 e' H1 H2 H3. unfold with_. now rewrite H1, H2, H3.
Qed.

Lemma get_cursor_enters : forall c w k,
  answer (outside w) (connection_cursor c) (events w) = inr k ->
  database.get_cursor c w =
  (record_all [Called (connection_cursor c); Logged DEBUG [Lit "Cursor created"]] w,
   inr (Some {| yielded := k;
                resume := database.get_cursor_from_yield k (ret tt);
                throw := fun e => database.get_cursor_from_yield k (raise e) |})).
Proof.
  intros c w k H. unfold database.get_cursor, bind.
  rewrite (call_returns _ _ _ H). unfold log, ret, record, record_all. simpl.
  now rewrite <- app_assoc.
Qed.

(** Leaving the cursor scope: [cursor.close()] is called, and an exception
    of the block is raised again. *)
Lemma get_cursor_leaves : forall k (at_yield : M unit) w r,
  at_yield w = (w, r) ->
  database.get_cursor_from_yield k at_yield w =
  (record (Called (cursor_close k)) w,
   match answer (outside w) (cursor_close k) (events w) with
   | inl e' => inl e'
   | inr _ => r
   end).
Proof.
  intros k at_yield w r H. unfold database.get_cursor_from_yield, try_finally.
  assert (try_except at_yield [(is_Exception, fun e => raise e)] w = (w, r)) as ->.
  { unfold try_except. rewrite H. destruct r as [e|u]; [|reflexivity].
    simpl. now destruct (is_Exception e). }
  unfold call. now destruct (answer (outside w) (cursor_close k) (events w)).
Qed.

(** X4.  If the pool cannot hand out a connection, or the connection cannot
    give a cursor, the exception propagates at once: the block is not run
    and nothing is committed, rolled back or closed by that scope. *)
Theorem acquisition_failure_skips_the_block :
  forall A (body_conn : Connection -> M A) (body_cur : Cursor -> M A) w e,
    (forall pool,
        _POOL w = Some pool ->
        answer (outside w) (get_connection pool) (events w) = inl e ->
        with_ database.get_conn body_conn w =
        (record (Called (get_connection pool)) w, inl e)) /\
    (forall c,
        answer (outside w) (connection_cursor c) (events w) = inl e ->
        with_ (database.get_cursor c) body_cur w =
        (record (Called (connection_cursor c)) w, inl e)).
Proof.
  intros A body_conn body_cur w e. split.
  - intros pool HP Hc. apply with_raised_entering.
    unfold database.get_conn. rewrite HP. unfold bind.
    now rewrite (call_raises _ _ _ Hc).
  - intros c Hc. apply with_raised_entering.
    unfold database.get_cursor, bind. now rewrite (call_raises _ _ _ Hc).
Qed.

Lemma acquisition_failure_skips_the_block_witness :
  let e := LibraryError "PoolError" "Failed getting connection" in
  let w := Scenario.w_down Scenario.no_connection in
  _POOL w = Some Scenario.pool1 /\
  answer (outside w) (get_connection Scenario.pool1) (events w) = inl e /\
  with_ database.get_conn (fun _ => ret tt) w =
  (record (Called (get_connection Scenario.pool1)) w, inl e).
Proof.
  intros e w. split; [reflexivity|]. split; [reflexivity|].
  exact (proj1 (acquisition_failure_skips_the_block unit (fun _ => ret tt)
                  (fun _ => ret tt) w e) Scenario.pool1 eq_refl eq_refl).
Defined.

(** X5.  The cursor scope always closes the cursor, as the last thing it
    does; when [close] does not raise, the block's value comes out and the
    block's exception is raised again unchanged. *)
Theorem get_cursor_always_closes :
  forall A (body : Cursor -> M A) c w k w1 r,
    answer (outside w) (connection_cursor c) (events w) = inr k ->
    body k (record_all [Called (connection_cursor c);
                        Logged DEBUG [Lit "Cursor created"]] w) = (w1, r) ->
    exists out,
      with_ (database.get_cursor c) body w = (record (Called (cursor_close k)) w1, out) /\
      (answer (outside w1) (cursor_close k) (events w1) = inr tt ->
       out = match r with inl e => inl e | inr a => inr (Some a) end).
Proof.
  intros A body c w k w1 r Hk Hbody. unfold with_.
  rewrite (get_cursor_enters c w k Hk). cbn [yielded resume throw]. rewrite Hbody.
  destruct r as [e|a].
  - rewrite (get_cursor_leaves k (raise e) w1 (inl e) eq_refl).
    destruct (answer (outside w1) (cursor_close k) (events w1)) as [e'|[]];
      eexists; (split; [reflexivity|]); [discriminate|reflexivity].
  - rewrite (get_cursor_leaves k (ret tt) w1 (inr tt) eq_refl).
    destruct (answer (outside w1) (cursor_close k) (events w1)) as [e'|[]];
      eexists; (split; [reflexivity|]); [discriminate|reflexivity].
Qed.

Lemma get_cursor_always_closes_witness :
  let w := Scenario.w_warm in
  let body := fun _ : Cursor => (raise (KeyError "run_id") : M unit) in
  let w1 := record_all [Called (connection_cursor 1%nat);
                        Logged DEBUG [Lit "Cursor created"]] w in
  answer (outside w) (connection_cursor 1%nat) (events w) = inr 2%nat /\
  body 2%nat w1 = (w1, inl (KeyError "run_id")) /\
  answer (outside w1) (cursor_close 2%nat) (events w1) = inr tt /\
  exists out,
    with_ (database.get_cursor 1%nat) body w = (record (Called (cursor_close 2%nat)) w1, out) /\
    (answer (outside w1) (cursor_close 2%nat) (events w1) = inr tt ->
     out = inl (KeyError "run_id")).
Proof.
  intros w body w1.
  split; [reflexivity|]. split; [reflexivity|]. split; [reflexivity|].
  exact (get_cursor_always_closes unit body 1%nat w 2%nat w1 (inl (KeyError "run_id"))
           eq_refl eq_refl).
Defined.

(** ** The query *)

(** Woken by an exception, the generators of [get_conn] and [get_cursor]
    always end by raising: neither scope swallows an exception. *)
Lemma get_conn_throw_always_raises : forall c e w,
  exists w' e', database.get_conn_from_yield c (raise e) w = (w', inl e').
Proof.
  intros c e w. destruct (is_DatabaseError e) eqn:He.
  - unfold database.get_conn_from_yield.
    destruct (get_conn_handler c e w) as (w1 & r & rest & Hh & _).
    rewrite (try_finally_close _ _ c w w1 (inl r)).
    + destruct (answer (outside w1) (connection_close c) (events w1)); eauto.
    + rewrite (try_except_caught _ _ _ _ _ _ _ (bind_raise_l _ _ e _ w) He). exact Hh.
  - rewrite (get_conn_throw_other c e w He).
    destruct (answer (outside w) (connection_close c) (events w)); eauto.
Qed.

Lemma get_cursor_throw_always_raises : forall k e w,
  exists w' e', database.get_cursor_from_yield k (raise e) w = (w', inl e').
Proof.
  intros k e w. rewrite (get_cursor_leaves k (raise e) w (inl e) eq_refl).
  destruct (answer (outside w) (cursor_close k) (events w)); eauto.
Qed.

Lemma with_get_cursor_never_None : forall A (body : Cursor -> M A) c w w',
  with_ (database.get_cursor c) body w <> (w', inr None).
Proof.
  intros A body c w w'. unfold with_.
  destruct (answer (outside w) (connection_cursor c) (events w)) as [e|k] eqn:Hk.
  - unfold database.get_cursor, bind. rewrite (call_raises _ _ _ Hk). discriminate.
  - rewrite (get_cursor_enters c w k Hk). cbn [yielded resume throw].
    destruct (body k _) as [w2 [e|a]].
    + destruct (get_cursor_throw_always_raises k e w2) as (w3 & e' & ->). discriminate.
    + destruct (database.get_cursor_from_yield k (ret tt) w2) as [w3 [e'|u]]; discriminate.
Qed.

Lemma with_get_conn_never_None : forall A (body : Connection -> M A) w w',
  _POOL w <> None -> with_ database.get_conn body w <> (w', inr None).
Proof.
  intros A body w w' HP. unfold with_.
  destruct (_POOL w) as [pool|] eqn:E; [clear HP|contradiction].
  destruct (answer (outside w) (get_connection pool) (events w)) as [e|c] eqn:Hc.
  - unfold database.get_conn. rewrite E. unfold bind.
    rewrite (call_raises _ _ _ Hc). discriminate.
  - rewrite (get_conn_enters w pool c E Hc). cbn [yielded resume throw].
    destruct (body c _) as [w2 [e|a]].
    + destruct (get_conn_throw_always_raises c e w2) as (w3 & e' & ->). discriminate.
    + destruct (database.get_conn_from_yield c (ret tt) w2) as [w3 [e'|u]]; discriminate.
Qed.

(** A value that comes out of a [with] statement is the value of its block. *)
Lemma with_value_is_block_value : forall Y A (cm : Generator Y) (body : Y -> M A) w w' a,
  with_ cm body w = (w', inr (Some a)) ->
  exists y w1 w2, body y w1 = (w2, inr a).
Proof.
  intros Y A cm body w w' a. unfold with_.
  destruct (cm w) as [w1 [e|[s|]]]; try discriminate.
  destruct (body (yielded s) w1) as [w2 [e|a']] eqn:Hb.
  - destruct (throw s e w2) as [w3 [e'|u]]; discriminate.
  - destruct (resume s w2) as [w3 [e'|u]]; [discriminate|].
    intro H. injection H as _ <-. eauto.
Qed.

Lemma query_scopes_give_rows_or_raise : forall A (block : Cursor -> M A) w w' r,
  with_ database.get_conn (fun connection => with_ (database.get_cursor connection) block) w
    = (w', inr r) ->
  exists a, r = Some (Some a).
Proof.
  intros A block w w' r H.
  destruct (_POOL w) as [pool|] eqn:HP.
  - destruct r as [[a|]|].
    + now exists a.
    + destruct (with_value_is_block_value _ _ _ _ _ _ _ H) as (c & w1 & w2 & Hin).
      exfalso. exact (with_get_cursor_never_None _ _ _ _ _ Hin).
    + exfalso. revert H. apply with_get_conn_never_None. congruence.
  - unfold with_ in H. rewrite (get_conn_not_initialised w HP) in H. discriminate.
Qed.

(** X6.  [return_function_rows] either returns a list of rows or raises; it
    never returns [None].  When it raises, the last thing it did was to log
    the warning naming the function. *)
Theorem return_function_rows_returns_rows_or_raises : forall f date w,
  match database.return_function_rows f date w with
  | (w', inr (Some rows)) => True
  | (w', inr None) => False
  | (w', inl e) =>
      exists w1,
        events w' =
          events w1 ++
          [Logged WARNING [Lit "Failed to find any rows for the "; Str f; Lit " function"]]
  end.
Proof.
  intros f date w. unfold database.return_function_rows, try_except.
  unfold bind at 1. unfold log at 1.
  set (w0 := record (Logged INFO _) w).
  unfold bind at 1.
  destruct (with_ database.get_conn _ w0) as [w1 [e|r]] eqn:Hwith.
  - simpl. now exists w1.
  - destruct (query_scopes_give_rows_or_raise _ _ _ _ _ Hwith) as [rows ->].
    exact I.
Qed.

Lemma record_all_cons : forall e es w,
  record_all es (record e w) = record_all (e :: es) w.
Proof. intros. unfold record_all, record. simpl. now rewrite <- app_assoc. Qed.

Lemma record_record_all : forall e es w,
  record e (record_all es w) = record_all (es ++ [e]) w.
Proof. intros. unfold record_all, record. simpl. now rewrite <- app_assoc. Qed.

Lemma bind_raised_here : forall A B (m : M A) (k : A -> M B) w w' e,
  m w = (w', inl e) -> bind m k w = (w', inl e).
Proof. intros A B m k w w' e H. unfold bind. now rewrite H. Qed.

(** X7.  When no library call raises, [return_function_rows] on an
    initialised pool returns the rows [fetchall] gave, after exactly these
    steps in this order: take a connection, open a cursor, execute the
    SELECT with the function name and the date followed by a percent sign as
    parameters, fetch all rows, close the cursor, commit, close the
    connection. *)
Theorem return_function_rows_on_success : forall f date w pool,
  _POOL w = Some pool ->
  never_raises (outside w) ->
  exists c k rows,
    database.return_function_rows f date w =
    (record_all
       [Logged INFO [Lit "Getting database rows for "; Str f; Lit " on "; Str date];
        Called (get_connection pool);
        Called (connection_cursor c);
        Logged DEBUG [Lit "Cursor created"];
        Called (cursor_execute k database.SELECT_runAudits [f; String.append date "%"]);
        Called (cursor_fetchall k);
        Called (cursor_close k);
        Logged DEBUG [Lit "Transaction commited"];
        Called (connection_commit c);
        Called (connection_close c)] w,
     inr (Some rows)) /\
    answer (outside w) (cursor_fetchall k)
      (events w ++
       [Logged INFO [Lit "Getting database rows for "; Str f; Lit " on "; Str date];
        Called (get_connection pool);
        Called (connection_cursor c);
        Logged DEBUG [Lit "Cursor created"];
        Called (cursor_execute k database.SELECT_runAudits [f; String.append date "%"])])
    = inr rows.
Proof.
  intros f date w pool HP Hnr.
  set (i1 := Logged INFO [Lit "Getting database rows for "; Str f; Lit " on "; Str date]).
  set (w0 := record_all [i1] w).
  destruct (Hnr (get_connection pool) (events w0)) as [c Hc].
  set (w1 := record_all [i1; Called (get_connection pool)] w).
  destruct (Hnr (connection_cursor c) (events w1)) as [k Hk].
  set (w2 := record_all [i1; Called (get_connection pool); Called (connection_cursor c);
                         Logged DEBUG [Lit "Cursor created"]] w).
  set (execute := cursor_execute k database.SELECT_runAudits [f; String.append date "%"]).
  destruct (Hnr execute (events w2)) as [[] He].
  set (w3 := record_all [i1; Called (get_connection pool); Called (connection_cursor c);
                         Logged DEBUG [Lit "Cursor created"]; Called execute] w).
  destruct (Hnr (cursor_fetchall k) (events w3)) as [rows Hf].
  set (w4 := record_all [i1; Called (get_connection pool); Called (connection_cursor c);
                         Logged DEBUG [Lit "Cursor created"]; Called execute;
                         Called (cursor_fetchall k)] w).
  destruct (Hnr (cursor_close k) (events w4)) as [[] Hcc].
  set (w5 := record_all [i1; Called (get_connection pool); Called (connection_cursor c);
                         Logged DEBUG [Lit "Cursor created"]; Called execute;
                         Called (cursor_fetchall k); Called (cursor_close k)] w).
  destruct (Hnr (connection_commit c)
              (events w5 ++ [Logged DEBUG [Lit "Transaction commited"]])) as [[] Hcommit].
  set (w6 := record_all [i1; Called (get_connection pool); Called (connection_cursor c);
                         Logged DEBUG [Lit "Cursor created"]; Called execute;
                         Called (cursor_fetchall k); Called (cursor_close k);
                         Logged DEBUG [Lit "Transaction commited"];
                         Called (connection_commit c)] w).
  destruct (Hnr (connection_close c) (events w6)) as [[] Hclose].
  exists c, k, rows. split; [|exact Hf].
  (* the block *)
  assert ((call execute ;; result <- call (cursor_fetchall k) ;; ret result)%py w2
          = (w4, inr rows)) as Hblock.
  { unfold bind. rewrite (call_returns execute w2 tt He).
    change (record (Called execute) w2) with (record_all [Called execute] w2).
    unfold w2 at 1. rewrite record_all_record_all. cbn [app]. fold w3.
    rewrite (call_returns (cursor_fetchall k) w3 rows Hf).
    unfold w3, ret. now rewrite record_record_all. }
  (* the cursor scope *)
  assert (with_ (database.get_cursor c)
            (fun cursor => call (cursor_execute cursor database.SELECT_runAudits
                                   [f; String.append date "%"]) ;;
                           result <- call (cursor_fetchall cursor) ;; ret result)%py w1
          = (w5, inr (Some rows))) as Hcursor.
  { eapply with_returned.
    - apply (get_cursor_enters c w1 k Hk).
    - cbn [yielded]. unfold w1. rewrite record_all_record_all. exact Hblock.
    - cbn [resume]. rewrite (get_cursor_leaves k (ret tt) w4 (inr tt) eq_refl).
      change (outside w4) with (outside w). rewrite Hcc.
      unfold w4. now rewrite record_record_all. }
  (* the connection scope *)
  assert (database.get_conn_from_yield c (ret tt) w5 = (record_all
            [i1; Called (get_connection pool); Called (connection_cursor c);
             Logged DEBUG [Lit "Cursor created"]; Called execute;
             Called (cursor_fetchall k); Called (cursor_close k);
             Logged DEBUG [Lit "Transaction commited"];
             Called (connection_commit c); Called (connection_close c)] w, inr tt))
    as Hresume.
  { unfold database.get_conn_from_yield.
    rewrite (try_finally_close _ _ c w5 w6 (inr tt)).
    - change (outside w6) with (outside w). rewrite Hclose.
      unfold w6. now rewrite record_record_all.
    - apply try_except_returned. rewrite get_conn_commit_step.
      change (outside w5) with (outside w). rewrite Hcommit.
      unfold w5. now rewrite record_all_record_all. }
  assert (with_ database.get_conn
            (fun connection =>
               with_ (database.get_cursor connection)
                 (fun cursor => call (cursor_execute cursor database.SELECT_runAudits
                                        [f; String.append date "%"]) ;;
                                result <- call (cursor_fetchall cursor) ;; ret result)%py) w0
          = (record_all
               [i1; Called (get_connection pool); Called (connection_cursor c);
                Logged DEBUG [Lit "Cursor created"]; Called execute;
                Called (cursor_fetchall k); Called (cursor_close k);
                Logged DEBUG [Lit "Transaction commited"];
                Called (connection_commit c); Called (connection_close c)] w,
             inr (Some (Some rows)))) as Hconn.
  { eapply with_returned.
    - apply (get_conn_enters w0 pool c HP Hc).
    - cbn [yielded].
      replace (record (Called (get_connection pool)) w0) with w1
        by (unfold w0, w1; now rewrite record_record_all).
      exact Hcursor.
    - cbn [resume]. exact Hresume. }
  unfold database.return_function_rows.
  apply try_except_returned. unfold bind at 1. unfold log at 1.
  change (record i1 w) with w0.
  rewrite (bind_ok _ _ _ _ _ _ _ Hconn). reflexivity.
Qed.

Lemma calm_never_raises : forall table expression now,
  never_raises (Scenario.calm table expression now).
Proof. intros table expression now c h. destruct c; eexists; reflexivity. Qed.

Lemma return_function_rows_on_success_witness :
  let w := Scenario.w_warm in
  _POOL w = Some Scenario.pool1 /\
  never_raises (outside w) /\
  exists c k rows,
    database.return_function_rows "ENWL_power_scraper" "2025-10-26" w =
    (record_all
       [Logged INFO [Lit "Getting database rows for "; Str "ENWL_power_scraper";
                     Lit " on "; Str "2025-10-26"];
        Called (get_connection Scenario.pool1);
        Called (connection_cursor c);
        Logged DEBUG [Lit "Cursor created"];
        Called (cursor_execute k database.SELECT_runAudits
                  ["ENWL_power_scraper"; String.append "2025-10-26" "%"]);
        Called (cursor_fetchall k);
        Called (cursor_close k);
        Logged DEBUG [Lit "Transaction commited"];
        Called (connection_commit c);
        Called (connection_close c)] w,
     inr (Some rows)) /\
    answer (outside w) (cursor_fetchall k)
      (events w ++
       [Logged INFO [Lit "Getting database rows for "; Str "ENWL_power_scraper";
                     Lit " on "; Str "2025-10-26"];
        Called (get_connection Scenario.pool1);
        Called (connection_cursor c);
        Logged DEBUG [Lit "Cursor created"];
        Called (cursor_execute k database.SELECT_runAudits
                  ["ENWL_power_scraper"; String.append "2025-10-26" "%"])])
    = inr rows.
Proof.
  intro w. split; [reflexivity|]. split; [apply calm_never_raises|].
  exact (return_function_rows_on_success "ENWL_power_scraper" "2025-10-26" w
           Scenario.pool1 eq_refl (calm_never_raises _ _ _)).
Defined.

Lemma get_conn_throw_DatabaseError_exactly : forall c e w,
  is_DatabaseError e = true ->
  methods_succeed c (outside w) ->
  database.get_conn_from_yield c (raise e) w =
  (record_all
     [Called (connection_rollback c);
      Logged ERROR [Lit "Failed to connect and commit transaction to database: "; Exc e];
      Called (connection_close c)] w,
   inl e).
Proof.
  intros c e w He Hm. unfold database.get_conn_from_yield.
  destruct (Hm (events w)) as (_ & Hroll & _).
  rewrite (try_finally_close _ _ c w
             (record_all [Called (connection_rollback c);
                          Logged ERROR [Lit "Failed to connect and commit transaction to database: ";
                                        Exc e]] w) (inl e)).
  - destruct (Hm (events w ++ [Called (connection_rollback c);
                Logged ERROR [Lit "Failed to connect and commit transaction to database: ";
                              Exc e]])) as (_ & _ & Hclose).
    cbn [outside record_all events]. rewrite Hclose. now rewrite record_record_all.
  - rewrite (try_except_caught _ _ _ _ _ _ _ (bind_raise_l _ _ e _ w) He).
    unfold bind. rewrite (call_returns _ _ _ Hroll).
    unfold log, raise, record, record_all. simpl. now rewrite <- app_assoc.
Qed.

(** X8.  When the statement fails, nothing is committed: the cursor is
    closed, the transaction is rolled back only if the exception is the
    package's own [DatabaseError], the connection is closed, the warning is
    logged and the exception of the statement is raised again. *)
Theorem return_function_rows_when_the_statement_fails : forall f date w pool c k e,
  let asked := Logged INFO [Lit "Getting database rows for "; Str f; Lit " on "; Str date] in
  let execute := cursor_execute k database.SELECT_runAudits [f; String.append date "%"] in
  _POOL w = Some pool ->
  answer (outside w) (get_connection pool) (events w ++ [asked]) = inr c ->
  answer (outside w) (connection_cursor c)
    (events w ++ [asked; Called (get_connection pool)]) = inr k ->
  answer (outside w) execute
    (events w ++ [asked; Called (get_connection pool); Called (connection_cursor c);
                  Logged DEBUG [Lit "Cursor created"]]) = inl e ->
  (forall h, answer (outside w) (cursor_close k) h = inr tt) ->
  methods_succeed c (outside w) ->
  database.return_function_rows f date w =
  (record_all
     ([asked; Called (get_connection pool); Called (connection_cursor c);
       Logged DEBUG [Lit "Cursor created"]; Called execute; Called (cursor_close k)] ++
      (if is_DatabaseError e
       then [Called (connection_rollback c);
             Logged ERROR [Lit "Failed to connect and commit transaction to database: ";
                           Exc e]]
       else []) ++
      [Called (connection_close c);
       Logged WARNING [Lit "Failed to find any rows for the "; Str f; Lit " function"]]) w,
   inl e).
Proof.
  intros f date w pool c k e asked execute HP Hc Hk He Hcc Hm.
  set (w0 := record_all [asked] w).
  set (w1 := record_all [asked; Called (get_connection pool)] w).
  set (w2 := record_all [asked; Called (get_connection pool); Called (connection_cursor c);
                         Logged DEBUG [Lit "Cursor created"]] w).
  set (w3 := record_all [asked; Called (get_connection pool); Called (connection_cursor c);
                         Logged DEBUG [Lit "Cursor created"]; Called execute] w).
  set (w4 := record_all [asked; Called (get_connection pool); Called (connection_cursor c);
                         Logged DEBUG [Lit "Cursor created"]; Called execute;
                         Called (cursor_close k)] w).
  assert (with_ (database.get_cursor c)
            (fun cursor => call (cursor_execute cursor database.SELECT_runAudits
                                   [f; String.append date "%"]) ;;
                           result <- call (cursor_fetchall cursor) ;; ret result)%py w1
          = (w4, inl e)) as Hcursor.
  { eapply with_raised.
    - apply (get_cursor_enters c w1 k Hk).
    - cbn [yielded]. unfold w1. rewrite record_all_record_all. cbn [app]. fold w2.
      fold execute. unfold bind. rewrite (call_raises execute w2 e He).
      change (record (Called execute) w2) with (record_all [Called execute] w2).
      unfold w2. rewrite record_all_record_all. reflexivity.
    - cbn [throw app]. fold w3.
      rewrite (get_cursor_leaves k (raise e) w3 (inl e) eq_refl).
      change (outside w3) with (outside w). rewrite (Hcc (events w3)).
      unfold w3. now rewrite record_record_all. }
  assert (forall w5,
            database.get_conn_from_yield c (raise e) w4 = (w5, inl e) ->
            database.return_function_rows f date w =
            (record (Logged WARNING [Lit "Failed to find any rows for the "; Str f;
                                     Lit " function"]) w5, inl e)) as Hfinish.
  { intros w5 Hthrow.
    assert (with_ database.get_conn
              (fun connection =>
                 with_ (database.get_cursor connection)
                   (fun cursor => call (cursor_execute cursor database.SELECT_runAudits
                                          [f; String.append date "%"]) ;;
                                  result <- call (cursor_fetchall cursor) ;; ret result)%py) w0
            = (w5, inl e)) as Hconn.
    { eapply with_raised.
      - apply (get_conn_enters w0 pool c HP Hc).
      - cbn [yielded].
        replace (record (Called (get_connection pool)) w0) with w1
          by (unfold w0, w1; now rewrite record_record_all).
        exact Hcursor.
      - cbn [throw]. exact Hthrow. }
    unfold database.return_function_rows.
    erewrite try_except_caught; [| |reflexivity].
    2:{ unfold bind at 1. unfold log at 1. change (record asked w) with w0.
        rewrite (bind_raised_here _ _ _ _ _ _ _ Hconn). reflexivity. }
    reflexivity. }
  destruct (is_DatabaseError e) eqn:Hdb.
  - rewrite (Hfinish _ (get_conn_throw_DatabaseError_exactly c e w4 Hdb Hm)).
    unfold w4. rewrite record_all_record_all, record_record_all.
    now rewrite <- !app_assoc.
  - rewrite (Hfinish (record (Called (connection_close c)) w4)).
    + unfold w4. rewrite !record_record_all. now rewrite <- !app_assoc.
    + rewrite (get_conn_throw_other c e w4 Hdb).
      destruct (Hm (events w4)) as (_ & _ & Hclose).
      change (outside w4) with (outside w). now rewrite Hclose.
Qed.

Lemma return_function_rows_when_the_statement_fails_witness :
  let w := Scenario.w_down Scenario.no_execute in
  let e := LibraryError "ProgrammingError" "Table does not exist" in
  let asked := Logged INFO [Lit "Getting database rows for "; Str "ENWL_power_scraper";
                            Lit " on "; Str "2025-10-26"] in
  let execute := cursor_execute 2%nat database.SELECT_runAudits
                   ["ENWL_power_scraper"; String.append "2025-10-26" "%"] in
  _POOL w = Some Scenario.pool1 /\
  answer (outside w) (get_connection Scenario.pool1) (events w ++ [asked]) = inr 1%nat /\
  answer (outside w) (connection_cursor 1%nat)
    (events w ++ [asked; Called (get_connection Scenario.pool1)]) = inr 2%nat /\
  answer (outside w) execute
    (events w ++ [asked; Called (get_connection Scenario.pool1);
                  Called (connection_cursor 1%nat);
                  Logged DEBUG [Lit "Cursor created"]]) = inl e /\
  (forall h, answer (outside w) (cursor_close 2%nat) h = inr tt) /\
  methods_succeed 1%nat (outside w) /\
  database.return_function_rows "ENWL_power_scraper" "2025-10-26" w =
  (record_all
     [asked; Called (get_connection Scenario.pool1); Called (connection_cursor 1%nat);
      Logged DEBUG [Lit "Cursor created"]; Called execute; Called (cursor_close 2%nat);
      Called (connection_close 1%nat);
      Logged WARNING [Lit "Failed to find any rows for the "; Str "ENWL_power_scraper";
                      Lit " function"]] w,
   inl e).
Proof.
  intros w e asked execute.
  assert (methods_succeed 1%nat (outside w)) as Hm by (intro h; repeat split).
  split; [reflexivity|]. split; [reflexivity|]. split; [reflexivity|].
  split; [reflexivity|]. split; [intro h; reflexivity|]. split; [exact Hm|].
  exact (return_function_rows_when_the_statement_fails
           "ENWL_power_scraper" "2025-10-26" w Scenario.pool1 1%nat 2%nat e
           eq_refl eq_refl eq_refl eq_refl (fun h => eq_refl) Hm).
Defined.

(** ** Secrets *)

(** The body of [_get_secret_payload], by the answer of the secret store. *)
Lemma get_secret_payload_body_outcome : forall name w,
  secrets._get_secret_payload_body name w =
  match answer (outside w) (get_secret_value name) (events w) with
  | inr payload => (record (Called (get_secret_value name)) w, inr payload)
  | inl e0 =>
      if is_ResourceNotFoundException e0 then
        (record_all [Called (get_secret_value name);
                     Logged ERROR [Lit "Secret "; Str name; Lit " not found"]] w,
         inl (SecretError (String.append "Secret " (String.append name " not found"))))
      else if is_Exception e0 then
        (record_all [Called (get_secret_value name);
                     Logged ERROR [Lit "Unable to retrieve secret. Check AWS credentials and permissions."]] w,
         inl (SecretError "Access denied to Secrets Manager"))
      else (record (Called (get_secret_value name)) w, inl e0)
  end.
Proof.
  intros name w. unfold secrets._get_secret_payload_body, try_except, call.
  destruct (answer (outside w) (get_secret_value name) (events w)) as [e0|payload];
    [|reflexivity].
  simpl select_clause.
  destruct (is_ResourceNotFoundException e0).
  - unfold bind, log, raise, record, record_all. simpl. now rewrite <- app_assoc.
  - destruct (is_Exception e0); [|reflexivity].
    unfold bind, log, raise, record, record_all. simpl. now rewrite <- app_assoc.
Qed.

(** X9.  When fetching the secret fails, what the caller sees is decided by
    the exception of the secret store: a missing secret becomes
    [SecretError] "Secret <name> not found", any other [Exception] becomes
    [SecretError] "Access denied to Secrets Manager", and only an exception
    that is not an [Exception] passes unchanged.  Nothing is cached. *)
Theorem secret_failures_become_SecretError : forall name w w' e,
  secrets._get_secret_payload name w = (w', inl e) ->
  secret_payload_cache w' = secret_payload_cache w /\
  exists e0,
    answer (outside w) (get_secret_value name) (events w) = inl e0 /\
    e = if is_ResourceNotFoundException e0
        then SecretError (String.append "Secret " (String.append name " not found"))
        else if is_Exception e0
             then SecretError "Access denied to Secrets Manager"
             else e0.
Proof.
  intros name w w' e. unfold secrets._get_secret_payload.
  rewrite get_secret_payload_body_outcome.
  destruct (secret_payload_cache w) as [[cached payload]|] eqn:Hcache.
  - destruct (String.eqb cached name); [discriminate|].
    destruct (answer (outside w) (get_secret_value name) (events w)) as [e0|p];
      [|discriminate].
    destruct (is_ResourceNotFoundException e0) eqn:H1;
      [|destruct (is_Exception e0) eqn:H2];
      intro H; injection H as <- <-; (split; [exact Hcache|]);
      exists e0; rewrite ?H1, ?H2; split; reflexivity.
  - destruct (answer (outside w) (get_secret_value name) (events w)) as [e0|p];
      [|discriminate].
    destruct (is_ResourceNotFoundException e0) eqn:H1;
      [|destruct (is_Exception e0) eqn:H2];
      intro H; injection H as <- <-; (split; [exact Hcache|]);
      exists e0; rewrite ?H1, ?H2; split; reflexivity.
Qed.

Lemma secret_failures_become_SecretError_witness :
  let w := Scenario.cold (Scenario.failing Scenario.no_secret Scenario.table1
                            "rate(5 minutes)" Scenario.t_check) in
  let w' := record_all [Called (get_secret_value "db_creds");
                        Logged ERROR [Lit "Secret "; Str "db_creds"; Lit " not found"]] w in
  secrets._get_secret_payload "db_creds" w =
    (w', inl (SecretError "Secret db_creds not found")) /\
  secret_payload_cache w' = secret_payload_cache w /\
  exists e0,
    answer (outside w) (get_secret_value "db_creds") (events w) = inl e0 /\
    SecretError "Secret db_creds not found" =
      if is_ResourceNotFoundException e0
      then SecretError (String.append "Secret " (String.append "db_creds" " not found"))
      else if is_Exception e0
           then SecretError "Access denied to Secrets Manager"
           else e0.
Proof.
  intros w w'. split; [reflexivity|].
  exact (secret_failures_become_SecretError "db_creds" w w'
           (SecretError "Secret db_creds not found") eq_refl).
Defined.

(** X10.  A payload that was returned is remembered: the cache holds it, and
    from any world whose cache holds it the call returns it at once, without
    asking the secret store and without changing anything. *)
Theorem secret_payload_is_cached : forall name w w' payload,
  secrets._get_secret_payload name w = (w', inr payload) ->
  secret_payload_cache w' = Some (name, payload) /\
  secrets._get_secret_payload name w' = (w', inr payload) /\
  forall w'', secret_payload_cache w'' = Some (name, payload) ->
              secrets._get_secret_payload name w'' = (w'', inr payload).
Proof.
  intros name w w' payload H.
  assert (forall w'', secret_payload_cache w'' = Some (name, payload) ->
                      secrets._get_secret_payload name w'' = (w'', inr payload)) as Hhit.
  { intros w'' Hc. unfold secrets._get_secret_payload. rewrite Hc.
    now rewrite String.eqb_refl. }
  assert (secret_payload_cache w' = Some (name, payload)) as Hc.
  { revert H. unfold secrets._get_secret_payload.
    assert (match secrets._get_secret_payload_body name w with
            | (w1, inr p) => (set_secret_payload_cache (Some (name, p)) w1, inr p)
            | (w1, inl e) => (w1, inl e)
            end = (w', inr payload) ->
            secret_payload_cache w' = Some (name, payload)) as Hmiss.
    { destruct (secrets._get_secret_payload_body name w) as [w1 [e|p]]; [discriminate|].
      intro H. injection H as <- <-. reflexivity. }
    destruct (secret_payload_cache w) as [[cached p]|] eqn:Hcache; [|exact Hmiss].
    destruct (String.eqb cached name) eqn:Hname; [|exact Hmiss].
    intro H. injection H as <- <-. apply String.eqb_eq in Hname. now subst cached. }
  split; [exact Hc|]. split; [exact (Hhit w' Hc)|exact Hhit].
Qed.

Lemma secret_payload_is_cached_witness :
  let payload := [("host", "db.local"); ("user", "checker"); ("password", "pw");
                  ("database", "audits")] in
  let w' := set_secret_payload_cache (Some ("db_creds", payload))
              (record (Called (get_secret_value "db_creds")) Scenario.w_cold) in
  secrets._get_secret_payload "db_creds" Scenario.w_cold = (w', inr payload) /\
  secret_payload_cache w' = Some ("db_creds", payload) /\
  secrets._get_secret_payload "db_creds" w' = (w', inr payload).
Proof.
  intros payload w'. split; [reflexivity|].
  destruct (secret_payload_is_cached "db_creds" Scenario.w_cold w' payload eq_refl)
    as (H1 & H2 & _).
  split; [exact H1|exact H2].
Defined.

(** X11.  [get_db_config] keeps exactly the four entries host, user,
    password and database of the secret, in that order and with the
    secret's values, dropping any other entry; if one of the four is missing
    it raises [KeyError] for one of them. *)
Theorem get_db_config_keeps_four_entries : forall w w1 payload,
  secrets._get_secret_payload config.DATABASE_SECRET w = (w1, inr payload) ->
  fst (secrets.get_db_config w) = w1 /\
  match snd (secrets.get_db_config w) with
  | inr cfg =>
      map fst cfg = ["host"; "user"; "password"; "database"] /\
      forall k, In k ["host"; "user"; "password"; "database"] ->
                dict_get cfg k = dict_get payload k
  | inl e =>
      exists k, In k ["host"; "user"; "password"; "database"] /\
                dict_get payload k = None /\ e = KeyError k
  end.
Proof.
  intros w w1 payload H. unfold secrets.get_db_config.
  rewrite (bind_ok _ _ _ _ _ _ _ H). unfold bind, subscript, ret, raise.
  destruct (dict_get payload "host") as [h|] eqn:Hh; simpl;
    [|split; [reflexivity|exists "host"; simpl; auto]].
  destruct (dict_get payload "user") as [u|] eqn:Hu; simpl;
    [|split; [reflexivity|exists "user"; simpl; auto]].
  destruct (dict_get payload "password") as [p|] eqn:Hp; simpl;
    [|split; [reflexivity|exists "password"; simpl; auto 6]].
  destruct (dict_get payload "database") as [d|] eqn:Hd; simpl;
    [|split; [reflexivity|exists "database"; simpl; auto 7]].
  split; [reflexivity|]. split; [reflexivity|].
  intros k [<-|[<-|[<-|[<-|[]]]]]; simpl; congruence.
Qed.

Lemma get_db_config_keeps_four_entries_witness :
  let payload := [("host", "db.local"); ("user", "checker"); ("password", "pw");
                  ("database", "audits")] in
  let w1 := set_secret_payload_cache (Some ("db_creds", payload))
              (record (Called (get_secret_value "db_creds")) Scenario.w_cold) in
  secrets._get_secret_payload config.DATABASE_SECRET Scenario.w_cold = (w1, inr payload) /\
  fst (secrets.get_db_config Scenario.w_cold) = w1.
Proof.
  intros payload w1. split; [reflexivity|].
  exact (proj1 (get_db_config_keeps_four_entries Scenario.w_cold w1 payload eq_refl)).
Defined.

(** ** Dictionaries and the pool's arguments *)

Lemma dict_get_set_same : forall V (d : dict V) k v,
  dict_get (dict_set d k v) k = Some v.
Proof.
  intros V d k v. induction d as [|[k' v'] d IH]; simpl.
  - now rewrite String.eqb_refl.
  - destruct (String.eqb k' k) eqn:E; simpl; rewrite E; [reflexivity|exact IH].
Qed.

Lemma dict_get_set_other : forall V (d : dict V) k v k',
  k <> k' -> dict_get (dict_set d k v) k' = dict_get d k'.
Proof.
  intros V d k v k' Hne. induction d as [|[k0 v0] d IH]; simpl.
  - now rewrite (proj2 (String.eqb_neq k k') Hne).
  - destruct (String.eqb k0 k) eqn:E; simpl.
    + apply String.eqb_eq in E. subst k0.
      now rewrite (proj2 (String.eqb_neq k k') Hne).
    + destruct (String.eqb k0 k'); [reflexivity|exact IH].
Qed.

Lemma dict_get_map : forall V W (g : V -> W) (d : dict V) k,
  dict_get (map (fun kv => (fst kv, g (snd kv))) d) k = option_map g (dict_get d k).
Proof.
  intros V W g d k. induction d as [|[k' v] d IH]; simpl; [reflexivity|].
  destruct (String.eqb k' k); [reflexivity|exact IH].
Qed.

Ltac init_pool_cases w :=
  unfold database.init_pool;
  let HP := fresh "HP" in
  destruct (_POOL w) eqn:HP; [try discriminate|];
  unfold bind, database.DB_POOL_SIZE;
  let Henv := fresh "Henv" in
  let rest :=
    (destruct (dict_get _ "pool_name");
     [try discriminate
     |destruct (dict_get _ "pool_size");
      [try discriminate
      |unfold call, log; destruct (answer (outside w) _ (events w)); try discriminate]]) in
  destruct (environ (outside w) "DB_POOL_SIZE") as [?s|] eqn:Henv;
  [destruct (PyStr.int _) as [?z|] eqn:?Hparse; [rest|try discriminate]|rest].

(** X12.  Starting without a pool, a call of [init_pool] that returns has
    built one pool named live_station_pool from the configuration, with
    autocommit off and charset utf8mb4 whatever the configuration says about
    those two, every other configuration entry passed on as it is, and size
    4 unless DB_POOL_SIZE is set; it has made one constructor call and
    logged once. *)
Theorem init_pool_builds_the_pool : forall cfg w w',
  _POOL w = None ->
  database.init_pool cfg w = (w', inr tt) ->
  exists pool,
    _POOL w' = Some pool /\
    events w' = events w ++ [Called (MySQLConnectionPool pool);
                             Logged DEBUG [Lit "Database connection pool initialized"]] /\
    pool_name pool = "live_station_pool" /\
    (environ (outside w) "DB_POOL_SIZE" = None -> pool_size pool = 4) /\
    dict_get (pool_kwargs pool) "autocommit" = Some (KBool false) /\
    dict_get (pool_kwargs pool) "charset" = Some (KStr "utf8mb4") /\
    forall k v, k <> "autocommit" -> k <> "charset" ->
                dict_get cfg k = Some v -> dict_get (pool_kwargs pool) k = Some (KStr v).
Proof.
  intros cfg w w' HP0.
  assert (forall size,
    let pool := {| pool_name := "live_station_pool"; pool_size := size;
                   pool_kwargs :=
                     dict_merge (map (fun kv => (fst kv, KStr (snd kv))) cfg)
                       [("autocommit", KBool false); ("charset", KStr "utf8mb4")] |} in
    dict_get (pool_kwargs pool) "autocommit" = Some (KBool false) /\
    dict_get (pool_kwargs pool) "charset" = Some (KStr "utf8mb4") /\
    forall k v, k <> "autocommit" -> k <> "charset" ->
                dict_get cfg k = Some v -> dict_get (pool_kwargs pool) k = Some (KStr v))
    as Hkw.
  { intros size pool. unfold pool, dict_merge. cbn [pool_kwargs fold_left fst snd].
    split; [|split].
    - rewrite dict_get_set_other by discriminate. apply dict_get_set_same.
    - apply dict_get_set_same.
    - intros k v H1 H2 Hk.
      rewrite !dict_get_set_other by congruence.
      now rewrite dict_get_map, Hk. }
  init_pool_cases w; intro H; injection H as <-.
  - eexists. split; [reflexivity|]. split.
    { simpl. now rewrite <- app_assoc. }
    split; [reflexivity|]. split; [discriminate|]. apply Hkw.
  - eexists. split; [reflexivity|]. split.
    { simpl. now rewrite <- app_assoc. }
    split; [reflexivity|]. split; [reflexivity|]. apply Hkw.
Qed.

(** X13.  A call of [init_pool] that raises leaves the process without a
    pool, so that the next call tries again; it raises before the
    constructor is called when DB_POOL_SIZE is not an integer. *)
Theorem init_pool_failure_leaves_no_pool : forall cfg w w' e,
  database.init_pool cfg w = (w', inl e) ->
  _POOL w = None /\ _POOL w' = None /\
  (forall s, environ (outside w) "DB_POOL_SIZE" = Some s -> PyStr.int s = None ->
             w' = w /\ e = ValueError "invalid literal for int() with base 10").
Proof.
  intros cfg w w' e. init_pool_cases w; intro H; injection H as <- <-;
    (split; [reflexivity|]); (split; [assumption || reflexivity|]);
    intros s' Hs Hnone; try congruence; try (split; reflexivity).
Qed.

Lemma init_pool_builds_the_pool_witness :
  let cfg := [("host", "db.local"); ("charset", "latin1")] in
  let w := Scenario.w_cold in
  let w' := fst (database.init_pool cfg w) in
  _POOL w = None /\
  database.init_pool cfg w = (w', inr tt) /\
  exists pool,
    _POOL w' = Some pool /\
    events w' = events w ++ [Called (MySQLConnectionPool pool);
                             Logged DEBUG [Lit "Database connection pool initialized"]] /\
    pool_name pool = "live_station_pool" /\
    (environ (outside w) "DB_POOL_SIZE" = None -> pool_size pool = 4) /\
    dict_get (pool_kwargs pool) "autocommit" = Some (KBool false) /\
    dict_get (pool_kwargs pool) "charset" = Some (KStr "utf8mb4") /\
    forall k v, k <> "autocommit" -> k <> "charset" ->
                dict_get cfg k = Some v -> dict_get (pool_kwargs pool) k = Some (KStr v).
Proof.
  intros cfg w w'. split; [reflexivity|]. split; [reflexivity|].
  exact (init_pool_builds_the_pool cfg w w' eq_refl eq_refl).
Defined.

Lemma init_pool_failure_leaves_no_pool_witness :
  let w := Scenario.cold (Scenario.failing Scenario.no_pool Scenario.table1
                            "rate(5 minutes)" Scenario.t_check) in
  let w' := fst (database.init_pool [("host", "db.local")] w) in
  let e := LibraryError "InterfaceError" "Can't connect to MySQL server" in
  database.init_pool [("host", "db.local")] w = (w', inl e) /\
  _POOL w = None /\ _POOL w' = None.
Proof.
  intros w w' e. split; [reflexivity|].
  destruct (init_pool_failure_leaves_no_pool [("host", "db.local")] w w' e eq_refl)
    as (H1 & H2 & _).
  split; [exact H1|exact H2].
Defined.

(** ** The threshold *)

Lemma threshold_reached_iff : forall a b : nat,
  (0 < b)%nat ->
  Qle_bool config.ACCEPTABLE_ERROR_THRESHOLD
    (inject_Z (Z.of_nat a) / inject_Z (Z.of_nat b)) = true <->
  4 * Z.of_nat b <= 5 * Z.of_nat a.
Proof.
  intros a b Hb. rewrite Qle_bool_iff, (quotient_of_lengths a b Hb).
  unfold Qle, config.ACCEPTABLE_ERROR_THRESHOLD. cbn [Qnum Qden].
  replace (Z.pos (Pos.of_nat b)) with (Z.of_nat b).
  - lia.
  - destruct b as [|b]; [lia|]. now rewrite <- Pos.of_nat_succ.
Qed.

(** X14.  In whole numbers: for a non-empty row set [threshold_checker]
    publishes exactly one notification when at least four fifths of the rows
    are flagged (5 * flagged >= 4 * rows) and none otherwise. *)
Theorem notification_iff_four_fifths_flagged : forall errs rows f w,
  rows <> [] ->
  let w' := fst (utils.threshold_checker errs rows f w) in
  (4 * Z.of_nat (List.length rows) <= 5 * Z.of_nat (List.length errs) ->
   exists n, published (events w') = published (events w) ++ [n]) /\
  (5 * Z.of_nat (List.length errs) < 4 * Z.of_nat (List.length rows) ->
   published (events w') = published (events w)).
Proof.
  intros errs rows f w Hrows w'.
  assert (0 < List.length rows)%nat as Hlen
    by (destruct rows; [contradiction|simpl; lia]).
  pose proof (len_div_len_nonempty _ _ errs rows w Hrows) as Hq.
  pose proof (threshold_reached_iff (List.length errs) (List.length rows) Hlen) as Hiff.
  split; intro H.
  - apply Hiff in H.
    pose proof (threshold_checker_reached errs rows f w _ Hq H) as E.
    cbv zeta in E. subst w'. rewrite E. cbn [fst record_all events].
    rewrite published_app. eexists. reflexivity.
  - assert (Qle_bool config.ACCEPTABLE_ERROR_THRESHOLD
              (inject_Z (Z.of_nat (List.length errs)) /
               inject_Z (Z.of_nat (List.length rows))) = false) as Hcmp.
    { destruct (Qle_bool _ _) eqn:E; [|reflexivity]. pose proof (proj1 Hiff eq_refl). lia. }
    subst w'. rewrite (threshold_checker_below errs rows f w _ Hq Hcmp).
    cbn [fst record_all events]. rewrite published_app. apply app_nil_r.
Qed.

Lemma notification_iff_four_fifths_flagged_witness :
  let w' := fst (utils.threshold_checker Scenario.errs_fail Scenario.rows_half
                   "live_station_scraper" Scenario.w_warm) in
  Scenario.rows_half <> [] /\
  5 * Z.of_nat (List.length Scenario.errs_fail) < 4 * Z.of_nat (List.length Scenario.rows_half) /\
  published (events w') = published (events Scenario.w_warm).
Proof.
  intro w'.
  assert (Scenario.rows_half <> []) as Hne by discriminate.
  assert (5 * Z.of_nat (List.length Scenario.errs_fail)
          < 4 * Z.of_nat (List.length Scenario.rows_half)) as Hlt by (simpl; lia).
  split; [exact Hne|]. split; [exact Hlt|].
  exact (proj2 (notification_iff_four_fifths_flagged Scenario.errs_fail Scenario.rows_half
                  "live_station_scraper" Scenario.w_warm Hne) Hlt).
Defined.

(** X15.  [threshold_checker] raises in two cases only: on an empty row set,
    with [ZeroDivisionError] and nothing done; or when the publish call
    itself raised, with that exception and the publish call as the last
    thing done.  Logging and reading the clock never make it fail. *)
Theorem threshold_checker_raises_only_for_empty_rows_or_publish :
  forall errs rows f w w' e,
    utils.threshold_checker errs rows f w = (w', inl e) ->
    (rows = [] /\ w' = w /\ e = ZeroDivisionError "division by zero") \/
    (rows <> [] /\
     exists h message subject,
       events w' = h ++ [Called (sns_publish config.EMAIL_TOPIC_ARN message subject)] /\
       answer (outside w) (sns_publish config.EMAIL_TOPIC_ARN message subject) h = inl e).
Proof.
  intros errs rows f w w' e H. destruct rows as [|row rows].
  - left. unfold utils.threshold_checker in H.
    rewrite (bind_raised_here _ _ _ _ _ _ _ (len_div_len_empty _ _ errs w)) in H.
    injection H as <- <-. repeat split.
  - right. split; [discriminate|].
    pose proof (len_div_len_nonempty _ _ errs (row :: rows) w ltac:(discriminate)) as Hq.
    destruct (Qle_bool config.ACCEPTABLE_ERROR_THRESHOLD
                (inject_Z (Z.of_nat (List.length errs)) /
                 inject_Z (Z.of_nat (List.length (row :: rows))))) eqn:Hcmp.
    + pose proof (threshold_checker_reached errs (row :: rows) f w _ Hq Hcmp) as E.
      cbv zeta in E. rewrite E in H. clear E.
      match type of H with
      | (_, match answer _ ?c ?h with _ => _ end) = _ =>
          destruct (answer (outside w) c h) as [e'|u] eqn:Ha; [|discriminate];
          injection H as <- <-; exists h; do 2 eexists; split; [|exact Ha]
      end.
      cbn [record_all events]. rewrite <- app_assoc. reflexivity.
    + rewrite (threshold_checker_below errs (row :: rows) f w _ Hq Hcmp) in H.
      discriminate.
Qed.

Lemma threshold_checker_raises_only_for_empty_rows_or_publish_witness :
  let w := Scenario.w_down Scenario.no_publish in
  let e := LibraryError "ClientError" "AuthorizationError" in
  let w' := fst (utils.threshold_checker Scenario.errs_fail Scenario.rows_fail
                   "ENWL_power_scraper" w) in
  utils.threshold_checker Scenario.errs_fail Scenario.rows_fail "ENWL_power_scraper" w
    = (w', inl e) /\
  ((Scenario.rows_fail = [] /\ w' = w /\ e = ZeroDivisionError "division by zero") \/
   (Scenario.rows_fail <> [] /\
    exists h message subject,
      events w' = h ++ [Called (sns_publish config.EMAIL_TOPIC_ARN message subject)] /\
      answer (outside w) (sns_publish config.EMAIL_TOPIC_ARN message subject) h = inl e)).
Proof.
  intros w e w'.
  assert (utils.threshold_checker Scenario.errs_fail Scenario.rows_fail
            "ENWL_power_scraper" w = (w', inl e)) as H by (vm_compute; reflexivity).
  split; [exact H|].
  exact (threshold_checker_raises_only_for_empty_rows_or_publish _ _ _ _ _ _ H).
Defined.

(** ** Dates and first call times *)

Lemma day_before : forall t,
  PyDate.days_since_epoch (t - timedelta 1 0) = PyDate.days_since_epoch t - 1.
Proof.
  intro t. unfold PyDate.days_since_epoch, timedelta.
  replace (t - (1 * 86400000000 + 0 * 60000000)) with (t + (-1) * 86400000000) by lia.
  rewrite Z.div_add by lia. lia.
Qed.

Lemma strftime_Ymd_of_day : forall t,
  PyDate.strftime_Ymd t = PyDate.strftime_Ymd (PyDate.days_since_epoch t * 86400000000).
Proof.
  intro t. unfold PyDate.strftime_Ymd.
  replace (PyDate.days_since_epoch (PyDate.days_since_epoch t * 86400000000))
    with (PyDate.days_since_epoch t); [reflexivity|].
  unfold PyDate.days_since_epoch at 2. now rewrite Z.div_mul by lia.
Qed.

Lemma bind_ret_r : forall A (m : M A) w, (x <- m ;; ret x)%py w = m w.
Proof. intros A m w. unfold bind, ret. now destruct (m w) as [w' [e|a]]. Qed.

(** X16.  [prior_day_calls] reads the clock once and asks the database for
    the date of the UTC day before the day of that reading, whatever the
    time of day: the date is that of midnight of the previous day. *)
Theorem prior_day_calls_asks_for_the_previous_day : forall f w,
  let now := utcnow (outside w) (events w) in
  utils.prior_day_calls f w =
    database.return_function_rows f
      (PyDate.strftime_Ymd ((PyDate.days_since_epoch now - 1) * 86400000000))
      (record Now w) /\
  PyDate.days_since_epoch (now - timedelta 1 0) = PyDate.days_since_epoch now - 1.
Proof.
  intros f w now. split; [|apply day_before].
  unfold utils.prior_day_calls. unfold bind at 1. unfold datetime_now_utc. fold now.
  rewrite bind_ret_r, (strftime_Ymd_of_day (now - timedelta 1 0)), day_before.
  reflexivity.
Qed.

(** The minimum loop of [relative_start_time]. *)
Lemma earliest_fold : forall rows init,
  let earliest :=
    fold_left (fun earliest_date row =>
                 if function_start_time row <? earliest_date
                 then function_start_time row else earliest_date) rows init in
  earliest <= init /\
  Forall (fun r => earliest <= function_start_time r) rows /\
  (earliest = init \/ In earliest (map function_start_time rows)).
Proof.
  induction rows as [|r rows IH]; intro init; simpl.
  - split; [lia|]. split; [constructor|now left].
  - destruct (IH (if function_start_time r <? init then function_start_time r else init))
      as (H1 & H2 & H3).
    destruct (Z.ltb_spec (function_start_time r) init) as [Hlt|Hge].
    + split; [lia|]. split; [constructor; [lia|exact H2]|].
      right. destruct H3 as [H3|H3]; [left; congruence|now right].
    + split; [lia|]. split; [constructor; [lia|exact H2]|].
      destruct H3 as [H3|H3]; [now left|right; now right].
Qed.

(** X17.  [relative_start_time] returns the earliest start time among the
    prior-day rows: it is the start time of one of the rows and no row
    starts before it.  With no prior-day row it raises [IndexError]. *)
Theorem relative_start_time_is_the_earliest : forall f w w1 rows,
  utils.prior_day_calls f w = (w1, inr (Some rows)) ->
  match rows with
  | [] => utils.relative_start_time f w = (w1, inl (IndexError "list index out of range"))
  | _ :: _ =>
      exists earliest,
        utils.relative_start_time f w = (w1, inr earliest) /\
        In earliest (map function_start_time rows) /\
        Forall (fun r => earliest <= function_start_time r) rows
  end.
Proof.
  intros f w w1 rows H. unfold utils.relative_start_time.
  rewrite (bind_ok _ _ _ _ _ _ _ H). destruct rows as [|row0 rows]; [reflexivity|].
  eexists. split; [reflexivity|].
  destruct (earliest_fold rows (function_start_time row0)) as (H1 & H2 & H3).
  split; [|constructor; [exact H1|exact H2]].
  destruct H3 as [H3|H3]; [left; symmetry; exact H3|right; exact H3].
Qed.

(** X18.  With no prior-day row, [generate_exp_times] and
    [compare_run_times] raise [IndexError] as soon as the rows are fetched:
    the schedule is never asked for. *)
Theorem generate_exp_times_needs_a_prior_day_row : forall f w w1,
  utils.prior_day_calls f w = (w1, inr (Some [])) ->
  utils.generate_exp_times f w = (w1, inl (IndexError "list index out of range")) /\
  (forall w2, utils.prior_day_calls f w1 = (w2, inr (Some [])) ->
              utils.compare_run_times f w = (w2, inl (IndexError "list index out of range"))).
Proof.
  intros f w w1 H.
  assert (forall w w1, utils.prior_day_calls f w = (w1, inr (Some [])) ->
            utils.generate_exp_times f w = (w1, inl (IndexError "list index out of range")))
    as Hgen.
  { intros wa wb Ha. unfold utils.generate_exp_times.
    apply bind_raised_here. unfold utils.relative_start_time.
    now rewrite (bind_ok _ _ _ _ _ _ _ Ha). }
  split; [exact (Hgen w w1 H)|].
  intros w2 H2.
  assert (utils.enumerate_run_times f w = (w1, inr [])) as Hen.
  { unfold utils.enumerate_run_times. now rewrite (bind_ok _ _ _ _ _ _ _ H). }
  unfold utils.compare_run_times. rewrite (bind_ok _ _ _ _ _ _ _ Hen).
  apply bind_raised_here. exact (Hgen w1 w2 H2).
Qed.

Lemma relative_start_time_is_the_earliest_witness :
  let w := Scenario.w_warm in
  let w1 := fst (utils.prior_day_calls "live_station_scraper" w) in
  utils.prior_day_calls "live_station_scraper" w = (w1, inr (Some Scenario.rows_half)) /\
  exists earliest,
    utils.relative_start_time "live_station_scraper" w = (w1, inr earliest) /\
    In earliest (map function_start_time Scenario.rows_half) /\
    Forall (fun r => earliest <= function_start_time r) Scenario.rows_half.
Proof.
  intros w w1.
  assert (utils.prior_day_calls "live_station_scraper" w
          = (w1, inr (Some Scenario.rows_half))) as H by (vm_compute; reflexivity).
  split; [exact H|].
  exact (relative_start_time_is_the_earliest "live_station_scraper" w w1
           Scenario.rows_half H).
Defined.

Lemma generate_exp_times_needs_a_prior_day_row_witness :
  let w := Scenario.w_warm in
  let w1 := fst (utils.prior_day_calls "idle_function" w) in
  utils.prior_day_calls "idle_function" w = (w1, inr (Some [])) /\
  utils.generate_exp_times "idle_function" w =
    (w1, inl (IndexError "list index out of range")).
Proof.
  intros w w1.
  assert (utils.prior_day_calls "idle_function" w = (w1, inr (Some []))) as H
    by (vm_compute; reflexivity).
  split; [exact H|].
  exact (proj1 (generate_exp_times_needs_a_prior_day_row "idle_function" w w1 H)).
Defined.

(** ** The expected schedule, in general *)

(** X19.  For a rate expression in minutes, once the first call time and the
    schedule are fetched, [generate_exp_times] returns 480 times: the i-th is
    the earliest call time plus i times three minutes, so they start at the
    earliest call, are in increasing order and all fall within one day of
    it.  The rate value in the expression plays no part. *)
Theorem expected_times_every_three_minutes_for_one_day :
  forall f w w1 w2 earliest response expression part1 value,
    utils.relative_start_time f w = (w1, inr earliest) ->
    utils.get_event_bridge_schedule w1 = (w2, inr response) ->
    dict_get response "ScheduleExpression" = Some expression ->
    PyStr.contains "rate" expression = true ->
    nth_error (PyStr.split_on "(" expression) 1 = Some part1 ->
    PyStr.split_ws (PyStr.rstrip ")" part1) = [value; "minutes"] ->
    exists times,
      utils.generate_exp_times f w =
        (record (Logged INFO [Lit "Expected schedule created"]) w2, inr times) /\
      List.length times = 480%nat /\
      (forall i, (i < 480)%nat ->
                 nth_error times i = Some (earliest + Z.of_nat i * timedelta 0 3)) /\
      Forall (fun t => earliest <= t < earliest + timedelta 1 0) times.
Proof.
  intros f w w1 w2 earliest response expression part1 value H1 H2 H3 H4 H5 H6.
  exists (map (fun k => earliest + Z.of_nat k * timedelta 0 3) (seq 0 480)).
  split; [exact (generate_exp_times_in_minutes _ _ _ _ _ _ _ _ _ H1 H2 H3 H4 H5 H6)|].
  split; [now rewrite length_map, length_seq|]. split.
  - intros i Hi. rewrite nth_error_map, nth_error_seq.
    destruct (Nat.ltb_spec i 480) as [_|Hge]; [reflexivity|lia].
  - apply Forall_forall. intros t Ht. apply in_map_iff in Ht.
    destruct Ht as (k & <- & Hk). apply in_seq in Hk. unfold timedelta. lia.
Qed.

Lemma expected_times_every_three_minutes_for_one_day_witness :
  let f := "ENWL_power_scraper" in
  let w := Scenario.w_warm in
  let w1 := fst (utils.relative_start_time f w) in
  let w2 := fst (utils.get_event_bridge_schedule w1) in
  let response := [("ScheduleExpression", "rate(5 minutes)")] in
  utils.relative_start_time f w = (w1, inr Scenario.t_first) /\
  utils.get_event_bridge_schedule w1 = (w2, inr response) /\
  dict_get response "ScheduleExpression" = Some "rate(5 minutes)" /\
  PyStr.contains "rate" "rate(5 minutes)" = true /\
  nth_error (PyStr.split_on "(" "rate(5 minutes)") 1 = Some "5 minutes)" /\
  PyStr.split_ws (PyStr.rstrip ")" "5 minutes)") = ["5"; "minutes"] /\
  exists times,
    utils.generate_exp_times f w =
      (record (Logged INFO [Lit "Expected schedule created"]) w2, inr times) /\
    List.length times = 480%nat /\
    (forall i, (i < 480)%nat ->
               nth_error times i = Some (Scenario.t_first + Z.of_nat i * timedelta 0 3)) /\
    Forall (fun t => Scenario.t_first <= t < Scenario.t_first + timedelta 1 0) times.
Proof.
  intros f w w1 w2 response.
  assert (utils.relative_start_time f w = (w1, inr Scenario.t_first)) as H1
    by (vm_compute; reflexivity).
  assert (utils.get_event_bridge_schedule w1 = (w2, inr response)) as H2
    by (vm_compute; reflexivity).
  split; [exact H1|]. split; [exact H2|].
  split; [reflexivity|]. split; [reflexivity|]. split; [reflexivity|].
  split; [reflexivity|].
  exact (expected_times_every_three_minutes_for_one_day f w w1 w2 Scenario.t_first
           response "rate(5 minutes)" "5 minutes)" "5"
           H1 H2 eq_refl eq_refl eq_refl eq_refl).
Defined.

(** X20.  Once the first call time and the schedule are fetched,
    [generate_exp_times] raises [NotImplementedError], after one warning,
    for an expression without "rate" in it and for a rate whose unit is any
    word other than "minutes", the singular "minute" included. *)
Theorem unsupported_schedules_raise_NotImplementedError :
  forall f w w1 w2 earliest response expression,
    utils.relative_start_time f w = (w1, inr earliest) ->
    utils.get_event_bridge_schedule w1 = (w2, inr response) ->
    dict_get response "ScheduleExpression" = Some expression ->
    (PyStr.contains "rate" expression = false ->
     utils.generate_exp_times f w =
     (record (Logged WARNING
                [Lit "Cron expression used for function schedule - this functionality is not added yet"])
             w2,
      inl NotImplementedError)) /\
    (forall part1 value unit_,
        PyStr.contains "rate" expression = true ->
        nth_error (PyStr.split_on "(" expression) 1 = Some part1 ->
        PyStr.split_ws (PyStr.rstrip ")" part1) = [value; unit_] ->
        unit_ <> "minutes" ->
        utils.generate_exp_times f w =
        (record (Logged WARNING
                   [Lit "Rate in different granularity to minutes used - functionality not added"])
                w2,
         inl NotImplementedError)).
Proof.
  intros f w w1 w2 earliest response expression H1 H2 H3. split.
  - intro H4. exact (generate_exp_times_not_rate _ _ _ _ _ _ _ H1 H2 H3 H4).
  - intros part1 value unit_ H4 H5 H6 H7.
    exact (generate_exp_times_other_unit _ _ _ _ _ _ _ _ _ _ H1 H2 H3 H4 H5 H6 H7).
Qed.

Lemma unsupported_schedules_raise_NotImplementedError_witness :
  let f := "ENWL_power_scraper" in
  let w := Scenario.warm (Scenario.calm Scenario.table1 "rate(1 minute)" Scenario.t_check) in
  let w1 := fst (utils.relative_start_time f w) in
  let w2 := fst (utils.get_event_bridge_schedule w1) in
  let response := [("ScheduleExpression", "rate(1 minute)")] in
  utils.relative_start_time f w = (w1, inr Scenario.t_first) /\
  utils.get_event_bridge_schedule w1 = (w2, inr response) /\
  dict_get response "ScheduleExpression" = Some "rate(1 minute)" /\
  PyStr.contains "rate" "rate(1 minute)" = true /\
  nth_error (PyStr.split_on "(" "rate(1 minute)") 1 = Some "1 minute)" /\
  PyStr.split_ws (PyStr.rstrip ")" "1 minute)") = ["1"; "minute"] /\
  "minute" <> "minutes" /\
  utils.generate_exp_times f w =
  (record (Logged WARNING
             [Lit "Rate in different granularity to minutes used - functionality not added"])
          w2,
   inl NotImplementedError).
Proof.
  intros f w w1 w2 response.
  assert (utils.relative_start_time f w = (w1, inr Scenario.t_first)) as H1
    by (vm_compute; reflexivity).
  assert (utils.get_event_bridge_schedule w1 = (w2, inr response)) as H2
    by (vm_compute; reflexivity).
  assert ("minute" <> "minutes") as Hne by discriminate.
  split; [exact H1|]. split; [exact H2|].
  split; [reflexivity|]. split; [reflexivity|]. split; [reflexivity|].
  split; [reflexivity|]. split; [exact Hne|].
  exact (proj2 (unsupported_schedules_raise_NotImplementedError f w w1 w2 Scenario.t_first
                  response "rate(1 minute)" H1 H2 eq_refl)
           "1 minute)" "1" "minute" eq_refl eq_refl eq_refl Hne).
Defined.

(** ** The actual run times *)

Lemma sort_insert_permutation : forall x l, Permutation (x :: l) (sort_insert x l).
Proof.
  intros x l. induction l as [|y l IH]; simpl; [reflexivity|].
  destruct (x <? y); [reflexivity|].
  rewrite perm_swap. now apply perm_skip.
Qed.

Lemma sort_insert_sorted : forall x l, Sorted Z.le l -> Sorted Z.le (sort_insert x l).
Proof.
  intros x l H. induction H as [|y l Hs IH Hd]; simpl.
  - repeat constructor.
  - destruct (Z.ltb_spec x y) as [Hlt|Hge].
    + constructor; [constructor; assumption|constructor; lia].
    + constructor; [exact IH|].
      destruct l as [|z l]; simpl.
      * constructor. exact Hge.
      * inversion Hd; subst. destruct (x <? z); constructor; assumption.
Qed.

Lemma list_sort_from : forall l sorted,
  Sorted Z.le sorted ->
  Sorted Z.le (fold_left (fun sorted x => sort_insert x sorted) l sorted) /\
  Permutation (sorted ++ l) (fold_left (fun sorted x => sort_insert x sorted) l sorted).
Proof.
  induction l as [|x l IH]; intros sorted Hs; simpl.
  - split; [exact Hs|]. now rewrite app_nil_r.
  - destruct (IH (sort_insert x sorted) (sort_insert_sorted x sorted Hs)) as [H1 H2].
    split; [exact H1|]. rewrite <- H2.
    rewrite <- (sort_insert_permutation x sorted).
    symmetry. apply Permutation_middle.
Qed.

Lemma list_sort_sorts : forall l,
  Sorted Z.le (list_sort l) /\ Permutation l (list_sort l).
Proof. intro l. apply (list_sort_from l []). constructor. Qed.

Lemma start_times_fold : forall rows acc,
  fold_left (fun times row => times ++ [function_start_time row]) rows acc =
  acc ++ map function_start_time rows.
Proof.
  induction rows as [|r rows IH]; intro acc; simpl.
  - now rewrite app_nil_r.
  - rewrite IH. now rewrite <- app_assoc.
Qed.

Lemma index_dict_set_fresh : forall V (d : index_dict V) k v,
  (forall k' v', In (k', v') d -> k' <> k) -> index_dict_set d k v = d ++ [(k, v)].
Proof.
  intros V d k v. induction d as [|[k0 v0] d IH]; intro H; simpl; [reflexivity|].
  destruct (Nat.eqb_spec k0 k) as [E|N].
  - exfalso. exact (H k0 v0 (or_introl eq_refl) E).
  - f_equal. apply IH. intros k' v' Hin. apply (H k' v'). now right.
Qed.

Lemma enumerate_into_fresh : forall times d k,
  (forall k' v', In (k', v') d -> (k' < k)%nat) ->
  utils.enumerate_into d k times = d ++ combine (seq k (List.length times)) times.
Proof.
  induction times as [|t times IH]; intros d k H; simpl.
  - now rewrite app_nil_r.
  - rewrite index_dict_set_fresh.
    + rewrite IH.
      * now rewrite <- app_assoc.
      * intros k' v' Hin. apply in_app_or in Hin. destruct Hin as [Hin|[Hin|[]]].
        -- specialize (H k' v' Hin). lia.
        -- injection Hin as <- _. lia.
    + intros k' v' Hin. specialize (H k' v' Hin). lia.
Qed.

(** X21.  [enumerate_run_times] numbers the prior-day start times from 0 in
    ascending order: the values are the rows' start times, each as often as
    it occurs, sorted; the keys are 0, 1, 2, ... in that order. *)
Theorem enumerate_run_times_numbers_the_sorted_start_times : forall f w w1 rows,
  utils.prior_day_calls f w = (w1, inr (Some rows)) ->
  exists times,
    utils.enumerate_run_times f w =
      (w1, inr (combine (seq 0 (List.length rows)) times)) /\
    List.length times = List.length rows /\
    Sorted Z.le times /\
    Permutation (map function_start_time rows) times.
Proof.
  intros f w w1 rows H. unfold utils.enumerate_run_times.
  rewrite (bind_ok _ _ _ _ _ _ _ H). rewrite start_times_fold. cbn [app].
  destruct (list_sort_sorts (map function_start_time rows)) as [Hs Hp].
  exists (list_sort (map function_start_time rows)).
  assert (List.length (list_sort (map function_start_time rows)) = List.length rows) as Hl.
  { rewrite <- (Permutation_length Hp). apply length_map. }
  split; [|split; [exact Hl|split; [exact Hs|exact Hp]]].
  unfold ret. rewrite enumerate_into_fresh by (intros k' v' []).
  now rewrite Hl.
Qed.

Lemma enumerate_run_times_numbers_the_sorted_start_times_witness :
  let w := Scenario.w_warm in
  let w1 := fst (utils.prior_day_calls "live_station_scraper" w) in
  utils.prior_day_calls "live_station_scraper" w = (w1, inr (Some Scenario.rows_half)) /\
  exists times,
    utils.enumerate_run_times "live_station_scraper" w =
      (w1, inr (combine (seq 0 (List.length Scenario.rows_half)) times)) /\
    List.length times = List.length Scenario.rows_half /\
    Sorted Z.le times /\
    Permutation (map function_start_time Scenario.rows_half) times.
Proof.
  intros w w1.
  assert (utils.prior_day_calls "live_station_scraper" w
          = (w1, inr (Some Scenario.rows_half))) as H by (vm_compute; reflexivity).
  split; [exact H|].
  exact (enumerate_run_times_numbers_the_sorted_start_times "live_station_scraper" w w1
           Scenario.rows_half H).
Defined.

(** ** Comparing actual and expected run times *)

Lemma index_dict_get_enumerated : forall V (l : list V) k j,
  index_dict_get (combine (seq k (List.length l)) l) (k + j) = nth_error l j.
Proof.
  intros V l. induction l as [|x l IH]; intros k j; simpl.
  - now destruct j.
  - destruct j as [|j].
    + now rewrite Nat.add_0_r, Nat.eqb_refl.
    + destruct (Nat.eqb_spec k (k + S j)) as [E|_]; [lia|].
      replace (k + S j)%nat with (S k + j)%nat by lia. apply IH.
Qed.

Lemma compare_loop_differences : forall remaining expected_rest k dif_times
    enumerated expected w,
  (forall j, (j < List.length remaining)%nat ->
             index_dict_get enumerated (k + j) = nth_error remaining j) ->
  (forall j, nth_error expected (k + j) = nth_error expected_rest j) ->
  utils.compare_loop enumerated expected (seq k (List.length remaining)) dif_times w =
  if (List.length remaining <=? List.length expected_rest)%nat
  then (w, inr (dif_times ++ differences remaining expected_rest))
  else (w, inl (IndexError "list index out of range")).
Proof.
  induction remaining as [|a remaining IH];
    intros expected_rest k dif_times enumerated expected w Hen Hex.
  - simpl. now rewrite app_nil_r.
  - cbn [List.length seq utils.compare_loop].
    pose proof (Hen 0%nat ltac:(simpl; lia)) as Ha. rewrite Nat.add_0_r in Ha.
    rewrite Ha. cbn [nth_error].
    pose proof (Hex 0%nat) as He. rewrite Nat.add_0_r in He. rewrite He.
    destruct expected_rest as [|e expected_rest]; [reflexivity|].
    cbn [nth_error List.length differences].
    assert (forall j, (j < List.length remaining)%nat ->
                      index_dict_get enumerated (S k + j) = nth_error remaining j) as Hen'.
    { intros j Hj. replace (S k + j)%nat with (k + S j)%nat by lia.
      apply (Hen (S j)). simpl. lia. }
    assert (forall j, nth_error expected (S k + j) = nth_error expected_rest j) as Hex'.
    { intro j. replace (S k + j)%nat with (k + S j)%nat by lia. apply (Hex (S j)). }
    destruct (a =? e); cbn [negb].
    + rewrite (IH expected_rest (S k) dif_times enumerated expected w Hen' Hex').
      reflexivity.
    + rewrite (IH expected_rest (S k) _ enumerated expected w Hen' Hex').
      change (S (List.length remaining) <=? S (List.length expected_rest))%nat
        with (List.length remaining <=? List.length expected_rest)%nat.
      destruct (List.length remaining <=? List.length expected_rest)%nat; [|reflexivity].
      now rewrite <- app_assoc.
Qed.

Lemma differences_of_a_prefix : forall actual expected,
  (forall i a, nth_error actual i = Some a -> nth_error expected i = Some a) ->
  differences actual expected = [].
Proof.
  induction actual as [|a actual IH]; intros expected H; [reflexivity|].
  destruct expected as [|e expected].
  - specialize (H 0%nat a eq_refl). discriminate.
  - simpl. pose proof (H 0%nat a eq_refl) as H0. injection H0 as ->.
    rewrite Z.eqb_refl. apply IH. intros i b Hi. exact (H (S i) b Hi).
Qed.

(** X22.  [compare_run_times] compares by position: given the numbered
    actual times and the expected times, it logs the two lengths and, when
    there are no more actual times than expected ones, returns one entry for
    each position at which the two differ, in order of position; with more
    actual times than expected ones it raises [IndexError].  When every
    actual time equals the expected time of its position the result is
    empty. *)
Theorem compare_run_times_reports_positional_differences :
  forall f w w1 w2 actual expected,
    utils.enumerate_run_times f w
      = (w1, inr (combine (seq 0 (List.length actual)) actual)) ->
    utils.generate_exp_times f w1 = (w2, inr expected) ->
    let logged :=
      record (Logged INFO [Int (Z.of_nat (List.length expected)); Lit " vs ";
                           Int (Z.of_nat (List.length actual))]) w2 in
    utils.compare_run_times f w =
      (if (List.length actual <=? List.length expected)%nat
       then (logged, inr (differences actual expected))
       else (logged, inl (IndexError "list index out of range"))) /\
    ((forall i a, nth_error actual i = Some a -> nth_error expected i = Some a) ->
     utils.compare_run_times f w = (logged, inr [])).
Proof.
  intros f w w1 w2 actual expected Hen Hex logged.
  assert (utils.compare_run_times f w =
          if (List.length actual <=? List.length expected)%nat
          then (logged, inr (differences actual expected))
          else (logged, inl (IndexError "list index out of range"))) as Hcmp.
  { unfold utils.compare_run_times.
    rewrite (bind_ok _ _ _ _ _ _ _ Hen), (bind_ok _ _ _ _ _ _ _ Hex).
    unfold bind at 1. unfold log at 1.
    assert (List.length (combine (seq 0 (List.length actual)) actual) = List.length actual)
      as Hl by (rewrite length_combine, length_seq; lia).
    rewrite Hl. fold logged.
    rewrite (compare_loop_differences actual expected 0 [] _ expected logged).
    - reflexivity.
    - intros j _. apply (index_dict_get_enumerated _ actual 0 j).
    - reflexivity. }
  split; [exact Hcmp|].
  intro Hsame. rewrite Hcmp, (differences_of_a_prefix actual expected Hsame).
  assert (List.length actual <= List.length expected)%nat as Hle.
  { destruct (Nat.le_gt_cases (List.length actual) (List.length expected)) as [H|H];
      [exact H|].
    destruct actual as [|a0 actual0] eqn:Ea; [simpl in H; lia|]. rewrite <- Ea in *.
    assert (exists a, nth_error actual (List.length expected) = Some a) as [a Ha].
    { destruct (nth_error actual (List.length expected)) eqn:E; [eauto|].
      apply nth_error_None in E. lia. }
    specialize (Hsame _ _ Ha).
    assert (nth_error expected (List.length expected) = None) as Hn
      by (apply nth_error_None; lia).
    congruence. }
  now rewrite (proj2 (Nat.leb_le _ _) Hle).
Qed.

Lemma compare_run_times_reports_positional_differences_witness :
  let f := "live_station_scraper" in
  let w := Scenario.w_warm in
  let w1 := fst (utils.enumerate_run_times f w) in
  let w2 :=
    record (Logged INFO [Lit "Expected schedule created"])
      (fst (utils.get_event_bridge_schedule (fst (utils.relative_start_time f w1)))) in
  let actual := map function_start_time Scenario.rows_half in
  let expected :=
    map (fun k => Scenario.t_first + Z.of_nat k * timedelta 0 3) (seq 0 480) in
  utils.enumerate_run_times f w
    = (w1, inr (combine (seq 0 (List.length actual)) actual)) /\
  utils.generate_exp_times f w1 = (w2, inr expected) /\
  utils.compare_run_times f w =
    (record (Logged INFO [Int 480; Lit " vs "; Int 2]) w2, inr []).
Proof.
  intros f w w1 w2 actual expected.
  assert (utils.enumerate_run_times f w
          = (w1, inr (combine (seq 0 (List.length actual)) actual))) as H1
    by (vm_compute; reflexivity).
  assert (utils.generate_exp_times f w1 = (w2, inr expected)) as H2.
  { apply (generate_exp_times_in_minutes f w1 (fst (utils.relative_start_time f w1))
             (fst (utils.get_event_bridge_schedule (fst (utils.relative_start_time f w1))))
             Scenario.t_first [("ScheduleExpression", "rate(5 minutes)")]
             "rate(5 minutes)" "5 minutes)" "5");
      vm_compute; reflexivity. }
  split; [exact H1|]. split; [exact H2|].
  apply (proj2 (compare_run_times_reports_positional_differences f w w1 w2 actual expected
                  H1 H2)).
  intros i a Hi.
  destruct i as [|[|i]]; simpl in Hi.
  - injection Hi as <-. reflexivity.
  - injection Hi as <-. reflexivity.
  - destruct i; discriminate.
Defined.

(** ** The Lambda entry point *)

Lemma handler_returns_the_success_payload : forall Ev (event : Ev) context w w' payload,
  main.handler event context w = (w', inr payload) -> payload = main.success_payload.
Proof.
  intros Ev event context w w' payload. unfold main.handler, try_except.
  destruct (bind _ _ w) as [w1 [e|r]] eqn:Hbody.
  - simpl. destruct (is_Exception e); [|discriminate].
    unfold bind, log, raise. discriminate.
  - intro H. injection H as _ <-. revert Hbody. unfold bind.
    destruct (main.startup context w) as [w2 [e|[]]]; [discriminate|].
    destruct (for_each _ _ w2) as [w3 [e|[]]]; [discriminate|].
    unfold ret. congruence.
Qed.

(** X23.  [lambda_handler] adds nothing but one log line: when [handler]
    raises, the same exception leaves [lambda_handler] with nothing logged
    after it; when [handler] returns, its payload is the success payload,
    the look-up of its body cannot fail, the body text is logged at INFO and
    the payload is returned unchanged. *)
Theorem lambda_handler_logs_the_body_and_returns_the_payload :
  forall Ev (event : Ev) context w,
    app.lambda_handler event context w =
    match main.handler event context w with
    | (w', inl e) => (w', inl e)
    | (w', inr _) =>
        (record (Logged INFO [Str "Health check completed successfully"]) w',
         inr main.success_payload)
    end.
Proof.
  intros Ev event context w. unfold app.lambda_handler. unfold bind at 1.
  destruct (main.handler event context w) as [w' [e|payload]] eqn:H; [reflexivity|].
  apply handler_returns_the_success_payload in H. subst payload. reflexivity.
Qed.
